(** * World Bank GIS monitor: change detection and notification state

    A shallow embedding of [monitor_agent.py] (four-stream agent) and
    [main.py] (single-stream monitor): the retrying HTTP helpers, the
    keyword matcher, the JSON state files, the paginated projects fetch,
    the diff-and-notify loops and the weekly heartbeat.

    Conventions.
    - Python [str] is [string]; texts are taken to be ASCII, on which
      [str.lower] and [str.strip] are the functions written below.
    - Python [int] is [Z].  JSON numbers are integers.
    - A parsed JSON object is an association list in document order with
      pairwise distinct keys, as a Python [dict] has them.
    - The [Dict[str, str]] state maps are [gmap string string].
    - The outside world (network, disk, clock, log) is an explicit
      [World] threaded through every effectful function.  Each call of
      [LOGGER] is recorded with its format string and its arguments,
      except arguments that render an exception or a response body.
    - The payload of a webhook POST is identified by the sender that
      builds it and the arguments it is built from; the rendering of
      the embed is not modelled.
    - A loop that the source does not bound ([while True]) takes a
      [fuel] argument and reports [OutOfFuel] when it runs out. *)

From Stdlib Require Import ZArith Ascii String List Bool Lia.
From stdpp Require Import gmap strings list fin_maps.

Local Open Scope Z_scope.

(** ** Strings *)

Module Str.

(** [str.lower] on one ASCII character. *)
Definition lower_ascii (c : ascii) : ascii :=
  let n := nat_of_ascii c in
  if (Nat.leb 65 n && Nat.leb n 90)%bool then ascii_of_nat (n + 32) else c.

Fixpoint lower (s : string) : string :=
  match s with
  | EmptyString => EmptyString
  | String c t => String (lower_ascii c) (lower t)
  end.

(** [s.startswith(p)]. *)
Fixpoint starts_with (p s : string) : bool :=
  match p, s with
  | EmptyString, _ => true
  | String _ _, EmptyString => false
  | String a p', String b s' => if decide (a = b) then starts_with p' s' else false
  end.

(** [needle in hay] on strings: containment anywhere in [hay]. *)
Fixpoint contains (needle hay : string) : bool :=
  if starts_with needle hay then true
  else match hay with
       | EmptyString => false
       | String _ t => contains needle t
       end.

(** Characters removed by [str.strip()]. *)
Definition is_space (c : ascii) : bool :=
  let n := nat_of_ascii c in
  ((Nat.leb 9 n && Nat.leb n 13) || (Nat.leb 28 n && Nat.leb n 32))%bool.

Fixpoint lstrip (s : string) : string :=
  match s with
  | EmptyString => EmptyString
  | String c t => if is_space c then lstrip t else s
  end.

Fixpoint rstrip (s : string) : string :=
  match s with
  | EmptyString => EmptyString
  | String c t =>
      match rstrip t with
      | EmptyString => if is_space c then EmptyString else String c EmptyString
      | t' => String c t'
      end
  end.

Definition strip (s : string) : string := rstrip (lstrip s).

(** [sep.join(parts)]. *)
Fixpoint join (sep : string) (parts : list string) : string :=
  match parts with
  | [] => EmptyString
  | [p] => p
  | p :: rest => p +:+ sep +:+ join sep rest
  end.

(** Truth value of a string: [not s] is [is_empty s]. *)
Definition is_empty (s : string) : bool :=
  match s with EmptyString => true | _ => false end.

(** The mathematical notion the matcher is compared with. *)
Definition occurs_in (needle hay : string) : Prop :=
  ∃ pre post, hay = pre +:+ needle +:+ post.

End Str.

(** ** Keyword matcher *)

(** [text_matches_keywords] of [monitor_agent.py]; the body of
    [project_matches_keywords] of [main.py] after text extraction. *)
Fixpoint any_keyword_in (lower_text : string) (keywords : list string) : bool :=
  match keywords with
  | [] => false
  | kw :: rest =>
      if Str.contains (Str.lower kw) lower_text then true
      else any_keyword_in lower_text rest
  end.

Definition text_matches_keywords (text : string) (keywords : list string) : bool :=
  if Str.is_empty text then false
  else any_keyword_in (Str.lower text) keywords.

(** ** JSON values and the Python operations applied to them *)

#[warnings="-register-all"]
Inductive json : Type :=
| JNull
| JBool (b : bool)
| JNum (n : Z)
| JStr (s : string)
| JList (items : list json)
| JDict (items : list (string * json)).

(** A record of a stream: a Python [dict] decoded from JSON. *)
Abbreviation pydict := (list (string * json)).

(** Exceptions that the modelled code lets escape. *)
Inductive exn : Type := AttributeError | TypeError | ValueError.

(** Builtins whose full definition lies outside the program: [repr] of a
    value that is not a string, and [int] applied to a string
    ([None] stands for [ValueError]). *)
Class Builtins : Type := {
  py_repr : json → string;
  int_of_str : string → option Z
}.

Module Py.

(** [d.get(key)]: an absent key and a [null] value both read as [None]. *)
Fixpoint get (d : pydict) (key : string) : json :=
  match d with
  | [] => JNull
  | (k, v) :: rest => if decide (k = key) then v else get rest key
  end.

(** [d.get(key, default)]. *)
Fixpoint get_default (d : pydict) (key : string) (default : json) : json :=
  match d with
  | [] => default
  | (k, v) :: rest => if decide (k = key) then v else get_default rest key default
  end.

(** [d.values()]. *)
Definition values (d : pydict) : list json := map snd d.

(** Truth value of a JSON value. *)
Definition truthy (v : json) : bool :=
  match v with
  | JNull => false
  | JBool b => b
  | JNum n => negb (n =? 0)
  | JStr s => negb (Str.is_empty s)
  | JList l => match l with [] => false | _ => true end
  | JDict d => match d with [] => false | _ => true end
  end.

(** [a or b]. *)
Definition or_ (a b : json) : json := if truthy a then a else b.

(** [str(v)]. *)
Definition str `{Builtins} (v : json) : string :=
  match v with
  | JStr s => s
  | _ => py_repr v
  end.

(** [int(v)]. *)
Definition int `{Builtins} (v : json) : exn + Z :=
  match v with
  | JNum n => inr n
  | JBool b => inr (if b then 1 else 0)
  | JStr s => match int_of_str s with Some n => inr n | None => inl ValueError end
  | JNull | JList _ | JDict _ => inl TypeError
  end.

(** [x == y] for a string [x] and a JSON value [y]. *)
Definition str_eqb (x : string) (y : json) : bool :=
  match y with
  | JStr s => bool_decide (x = s)
  | _ => false
  end.

(** [x in l] for a string [x] and a list [l]. *)
Definition str_in (x : string) (l : list json) : bool := existsb (str_eqb x) l.

End Py.

(** ** The outside world *)

Record response : Type := {
  status_code : Z;
  (** what [response.json()] decodes; [None] when it raises [JSONDecodeError] *)
  json_body : option json
}.

(** What one [requests.get] / [requests.post] call meets: an exception of
    class [requests.RequestException], or a response. *)
Inductive reply : Type :=
| RequestException
| Reply (r : response).

(** Payload of a webhook POST, identified by the function that builds it
    and the arguments it is built from. *)
Inductive payload : Type :=
| ProjectAlert (is_update : bool) (project : pydict)
| ProcurementPlanAlert (is_update : bool) (doc : pydict)
| TenderAlert (record : pydict)
| AwardAlert (record : pydict)
| AgentHeartbeat (total_projects total_docs total_tenders total_awards
                  project_alerts document_alerts tender_alerts award_alerts : Z)
| ProjectEmbed (project : pydict)
| MonitorHeartbeat (total_projects matching_projects new_or_updated_projects : Z).

Inductive level : Type := INFO | WARNING | ERROR.

Inductive logarg : Type :=
| AStr (s : string)
| AInt (n : Z)
| ABool (b : bool)
| ANone.

(** Content of a state file as [open] and [json.load] find it. *)
Inductive file : Type :=
| Unreadable                 (* [open] raises [OSError] *)
| Garbled                    (* [json.load] raises [json.JSONDecodeError] *)
| Document (data : json).

Inductive event : Type :=
| EvGet (url : string) (params : pydict)
| EvPost (url : string) (body : payload)
| EvSleep (seconds : Z)
| EvLog (lvl : level) (fmt : string) (args : list logarg)
| EvDump (path : string) (mapping : gmap string string).

Record World : Type := mkWorld {
  (** what the n-th outbound request of the process meets *)
  net : nat → reply;
  (** number of requests issued so far *)
  issued : nat;
  disk : gmap string file;
  (** whether [open(path, "w")] succeeds *)
  writable : string → bool;
  (** [os.getenv("WB_DISCORD_WEBHOOK_URL")] *)
  env_webhook_url : option string;
  (** [date.today().isoformat()] and [date.today().weekday()] *)
  today_iso : string;
  today_weekday : Z;
  (** effects so far, oldest first *)
  trace : list event
}.

Definition emit (e : event) (w : World) : World :=
  mkWorld (net w) (issued w) (disk w) (writable w) (env_webhook_url w)
          (today_iso w) (today_weekday w) (trace w ++ [e]).

Definition bump (w : World) : World :=
  mkWorld (net w) (S (issued w)) (disk w) (writable w) (env_webhook_url w)
          (today_iso w) (today_weekday w) (trace w).

Definition store (path : string) (f : file) (w : World) : World :=
  mkWorld (net w) (issued w) (<[path := f]> (disk w)) (writable w)
          (env_webhook_url w) (today_iso w) (today_weekday w) (trace w).

(** Effectful code is a function of the world. *)
Definition IO (A : Type) : Type := World → A * World.

Definition io_ret {A} (a : A) : IO A := λ w, (a, w).
Definition io_bind {A B} (m : IO A) (k : A → IO B) : IO B :=
  λ w, let '(a, w') := m w in k a w'.

Declare Scope io_scope.
Delimit Scope io_scope with io.
Notation "'do' x <- m ; k" := (io_bind m (λ x, k))
  (at level 10, x name, m at level 100, k at level 200) : io_scope.
Notation "'do' ( x , y ) <- m ; k" := (io_bind m (λ xy, let '(x, y) := xy in k))
  (at level 10, x name, y name, m at level 100, k at level 200) : io_scope.
Notation "m ;; k" := (io_bind m (λ _, k))
  (at level 100, k at level 200, right associativity) : io_scope.
Local Open Scope io_scope.

Definition log (lvl : level) (fmt : string) (args : list logarg) : IO unit :=
  λ w, (tt, emit (EvLog lvl fmt args) w).

Definition sleep (seconds : Z) : IO unit :=
  λ w, (tt, emit (EvSleep seconds) w).

(** One outbound request: it is recorded, and meets the next reply. *)
Definition perform (request : event) : IO reply :=
  λ w, (net w (issued w), bump (emit request w)).

Definition requests_get (url : string) (params : pydict) : IO reply :=
  perform (EvGet url params).

Definition requests_post (url : string) (body : payload) : IO reply :=
  perform (EvPost url body).

(** The file at [path] as [os.path.exists], [open] and [json.load] find
    it; [None] when it does not exist. *)
Definition read_file (path : string) : IO (option file) :=
  λ w, (disk w !! path, w).

(** What [json.dump(mapping, f)] leaves in the file. *)
Definition dump (mapping : gmap string string) : json :=
  JDict (map (λ kv, (kv.1, JStr kv.2)) (map_to_list mapping)).

(** [with open(path, "w") as f: json.dump(mapping, f)]; the result tells
    whether the file was written or [OSError] was raised. *)
Definition write_file (path : string) (mapping : gmap string string) : IO bool :=
  λ w,
    if writable w path
    then (true, store path (Document (dump mapping)) (emit (EvDump path mapping) w))
    else (false, w).

(** ** Configuration *)

Definition DISCORD_WEBHOOK_URL : IO string :=
  λ w,
    (match env_webhook_url w with
     | Some u =>
         if Str.is_empty u then "https://discordapp.com/api/webhooks/REPLACE_ME" else u
     | None => "https://discordapp.com/api/webhooks/REPLACE_ME"
     end, w).

(** [date.today().isoformat()] and [date.today().weekday()]. *)
Definition date_today_isoformat : IO string := λ w, (today_iso w, w).
Definition date_today_weekday : IO Z := λ w, (today_weekday w, w).

Definition MAX_RETRIES : Z := 3.
Definition RETRY_BACKOFF_SECONDS : Z := 3.
Definition NIGERIA_COUNTRY_CODE : string := "NG".
Definition WB_PROJECTS_API_URL : string := "https://search.worldbank.org/api/v2/projects".
Definition WB_WDS_API_URL : string := "https://search.worldbank.org/api/v3/wds".
Definition WB_FINANCES_DATA_URL : string :=
  "https://datacatalogapi.worldbank.org/dexapps/fone/api/data".

(** ** HTTP with retries *)

(** The [while attempt <= max_retries] loop shared by [get_with_retries]
    and [post_with_retries], which differ in the request made and in the
    verb logged.  [fuel] bounds the number of iterations; the callers
    supply [max_retries] of them, which the loop never exceeds. *)
Fixpoint request_attempts (request : IO reply) (verb url : string) (fuel : nat)
    (max_retries attempt : Z) : IO (option response) :=
  match fuel with
  | O => io_ret None
  | S fuel' =>
      if attempt <=? max_retries then
        do r <- request;
        match r with
        | Reply response => io_ret (Some response)
        | RequestException =>
            if attempt =? max_retries then
              log ERROR (verb +:+ " %s failed after %d attempts: %s")
                  [AStr url; AInt attempt];;
              io_ret None
            else
              log WARNING (verb +:+ " %s failed on attempt %d/%d: %s; retrying...")
                  [AStr url; AInt attempt; AInt max_retries];;
              sleep (RETRY_BACKOFF_SECONDS * attempt);;
              request_attempts request verb url fuel' max_retries (attempt + 1)
        end
      else io_ret None
  end.

(** [get_with_retries(url, params=..., max_retries=...)]; every caller
    leaves [max_retries] at its default [MAX_RETRIES]. *)
Definition get_with_retries (url : string) (params : pydict) (max_retries : Z)
    : IO (option response) :=
  request_attempts (requests_get url params) "GET" url
    (Z.to_nat max_retries) max_retries 1.

Definition post_with_retries (url : string) (body : payload) (max_retries : Z)
    : IO (option response) :=
  request_attempts (requests_post url body) "POST" url
    (Z.to_nat max_retries) max_retries 1.

(** [response.raise_for_status()] raises on a 4xx or 5xx status. *)
Definition raises_for_status (r : response) : bool :=
  (400 <=? status_code r) && (status_code r <? 600).

(** [200 <= response.status_code < 300]. *)
Definition is_success (r : response) : bool :=
  (200 <=? status_code r) && (status_code r <? 300).

(** [not DISCORD_WEBHOOK_URL or "REPLACE_ME" in DISCORD_WEBHOOK_URL]. *)
Definition webhook_unconfigured (url : string) : bool :=
  Str.is_empty url || Str.contains "REPLACE_ME" url.

(** ** JSON state files *)

Section StateFiles.
Context `{Builtins}.

(** [{str(k): str(v) for k, v in data.items()}]. *)
Definition dict_to_state (data : pydict) : gmap string string :=
  fold_left (λ m kv, <[kv.1 := Py.str kv.2]> m) data ∅.

(** [{str(item): "" for item in data}]. *)
Definition list_to_state (data : list json) : gmap string string :=
  fold_left (λ m item, <[Py.str item := EmptyString]> m) data ∅.

(** [_load_state_map] of [monitor_agent.py] and [load_processed_projects]
    of [main.py]. *)
Definition _load_state_map (path : string) : IO (gmap string string) :=
  do f <- read_file path;
  match f with
  | None => io_ret ∅
  | Some Unreadable | Some Garbled => io_ret ∅
  | Some (Document data) =>
      match data with
      | JDict d => io_ret (dict_to_state d)
      | JList l => io_ret (list_to_state l)
      | _ => io_ret ∅
      end
  end.

(** [load_monitor_state] of [main.py]: only a JSON object is accepted. *)
Definition load_monitor_state_main (path : string) : IO (gmap string string) :=
  do f <- read_file path;
  match f with
  | None => io_ret ∅
  | Some Unreadable | Some Garbled => io_ret ∅
  | Some (Document data) =>
      match data with
      | JDict d => io_ret (dict_to_state d)
      | _ => io_ret ∅
      end
  end.

End StateFiles.

(** [_save_state_map]; also [save_processed_projects] and
    [save_monitor_state] of [main.py], which differ in the text logged. *)
Definition save_with (failure_fmt : string) (failure_args : list logarg)
    (path : string) (mapping : gmap string string) : IO unit :=
  do written <- write_file path mapping;
  if written then io_ret tt else log ERROR failure_fmt failure_args.

Definition _save_state_map (path : string) (mapping : gmap string string) : IO unit :=
  save_with "Failed to save state to %s: %s" [AStr path] path mapping.

(** ** Results of code that may raise or loop *)

Inductive outcome (A : Type) : Type :=
| Ok (a : A)
| Raises (e : exn)
| OutOfFuel.
Arguments Ok {A} a.
Arguments Raises {A} e.
Arguments OutOfFuel {A}.

Definition try_bind {A B} (m : IO (outcome A)) (k : A → IO (outcome B))
    : IO (outcome B) :=
  do r <- m;
  match r with
  | Ok a => k a
  | Raises e => io_ret (Raises e)
  | OutOfFuel => io_ret OutOfFuel
  end.

Notation "'try' x <- m ; k" := (try_bind m (λ x, k))
  (at level 10, x name, m at level 100, k at level 200) : io_scope.

(** [len(l)]. *)
Definition len {A} (l : list A) : Z := Z.of_nat (length l).

(** The line separator [" \n"] used when joining text parts. *)
Definition text_separator : string := String " " (String "010" EmptyString).

(** [[v] if isinstance(v, str) else []]. *)
Definition if_str (v : json) : list string :=
  match v with
  | JStr s => [s]
  | _ => []
  end.

(** ** Paginated fetch of the Projects API *)

(** The two projects fetchers share their control flow and differ in the
    query they send and in the texts they log. *)
Record projects_fetcher : Type := {
  page_params : Z → Z → pydict;
  msg_no_response : string;
  msg_http_error : string;
  msg_bad_json : string;
  msg_bad_shape : string;
  msg_page : string
}.

(** The client-side country filter: the loop over [projects.values()]. *)
Fixpoint keep_nigeria (values : list json) (all_projects : list pydict)
    : exn + list pydict :=
  match values with
  | [] => inr all_projects
  | JDict proj :: rest =>
      let country_codes := Py.or_ (Py.get proj "countrycode") (JList []) in
      match country_codes with
      | JList codes =>
          if Py.str_in NIGERIA_COUNTRY_CODE codes
          then keep_nigeria rest (all_projects ++ [proj])
          else keep_nigeria rest all_projects
      | _ => keep_nigeria rest all_projects
      end
  | _ :: _ => inl AttributeError
  end.

(** What one iteration of a loop decides. *)
Inductive step (A : Type) : Type :=
| Break (a : A)
| Continue (a : A)
| Throw (e : exn).
Arguments Break {A} a.
Arguments Continue {A} a.
Arguments Throw {A} e.

Section ProjectsFetch.
Context `{Builtins} (F : projects_fetcher).

(** Body of the [while True] loop: request one page and fold it into
    [all_projects]. *)
Definition fetch_page (rows_per_page page : Z) (all_projects : list pydict)
    : IO (step (list pydict)) :=
  do response <- get_with_retries WB_PROJECTS_API_URL
                   (page_params F rows_per_page page) MAX_RETRIES;
  match response with
  | None =>
      log ERROR (msg_no_response F) [AInt page];;
      io_ret (Break all_projects)
  | Some response =>
      if raises_for_status response then
        log ERROR (msg_http_error F) [AInt page];;
        io_ret (Break all_projects)
      else
        match json_body response with
        | None =>
            log ERROR (msg_bad_json F) [];;
            io_ret (Break all_projects)
        | Some (JDict payload) =>
            match Py.int (Py.get_default payload "total" (JNum 0)) with
            | inl e => io_ret (Throw e)
            | inr total =>
            match Py.int (Py.get_default payload "rows" (JNum rows_per_page)) with
            | inl e => io_ret (Throw e)
            | inr rows =>
                match Py.or_ (Py.get payload "projects") (JDict []) with
                | JDict projects =>
                    match keep_nigeria (Py.values projects) all_projects with
                    | inl e => io_ret (Throw e)
                    | inr all_projects' =>
                        log INFO (msg_page F)
                            [AInt page; AInt (len projects); AInt total];;
                        if (page * rows >=? total) || negb (Py.truthy (JDict projects))
                        then io_ret (Break all_projects')
                        else io_ret (Continue all_projects')
                    end
                | _ =>
                    log WARNING (msg_bad_shape F) [];;
                    io_ret (Break all_projects)
                end
            end
            end
        | Some _ => io_ret (Throw AttributeError)
        end
  end.

(** The [while True] loop; [fuel] bounds the number of pages requested. *)
Fixpoint fetch_pages (fuel : nat) (rows_per_page page : Z)
    (all_projects : list pydict) : IO (outcome (list pydict)) :=
  match fuel with
  | O => io_ret OutOfFuel
  | S fuel' =>
      do r <- fetch_page rows_per_page page all_projects;
      match r with
      | Break result => io_ret (Ok result)
      | Throw e => io_ret (Raises e)
      | Continue all_projects' =>
          fetch_pages fuel' rows_per_page (page + 1) all_projects'
      end
  end.

End ProjectsFetch.

(** ** Diff-and-notify loop *)

(** What distinguishes the loops of the streams: how the id and the
    marker are read, what is logged before sending, and the sender. *)
Record stream : Type := {
  get_id : pydict → string;
  get_last_update : pydict → string;
  announce : string → option string → string → bool → IO unit;
  send_alert : pydict → bool → IO bool
}.

Definition is_not_none {A} (o : option A) : bool :=
  match o with Some _ => true | None => false end.

(** [previous == current] where [previous] may be [None]. *)
Definition marker_eqb (previous : option string) (current : string) : bool :=
  match previous with
  | Some p => bool_decide (p = current)
  | None => false
  end.

Section DiffAndNotify.
Context (stm : stream).

(** Body of [for record in matching_records]. *)
Definition process_record (record : pydict)
    (st : gmap string string * Z) : IO (gmap string string * Z) :=
  let '(state, alerts) := st in
  let record_id := get_id stm record in
  if Str.is_empty record_id then io_ret (state, alerts)
  else
    let current_update := get_last_update stm record in
    let previous_update := state !! record_id in
    if is_not_none previous_update && marker_eqb previous_update current_update
    then io_ret (state, alerts)
    else
      let is_update :=
        is_not_none previous_update
        && negb (marker_eqb previous_update current_update) in
      announce stm record_id previous_update current_update is_update;;
      do sent <- send_alert stm record is_update;
      if sent
      then io_ret (<[record_id := current_update]> state, alerts + 1)
      else io_ret (state, alerts).

Fixpoint diff_and_notify (matching : list pydict)
    (st : gmap string string * Z) : IO (gmap string string * Z) :=
  match matching with
  | [] => io_ret st
  | record :: rest =>
      do st' <- process_record record st;
      diff_and_notify rest st'
  end.

End DiffAndNotify.

(** ** Sending one embed to the webhook *)

(** Common body of the [send_*] functions: configuration guard, POST with
    retries, classification of the response. *)
Definition send_embed (skip_fmt : string) (body : payload)
    (failed_fmt : string) (failed_args : list logarg)
    (sent_fmt : string) (sent_args : list logarg)
    (status_fmt : string) : IO bool :=
  do url <- DISCORD_WEBHOOK_URL;
  if webhook_unconfigured url then
    log WARNING skip_fmt [];;
    io_ret false
  else
    do response <- post_with_retries url body MAX_RETRIES;
    match response with
    | None =>
        log ERROR failed_fmt failed_args;;
        io_ret false
    | Some r =>
        if is_success r then
          log INFO sent_fmt sent_args;;
          io_ret true
        else
          log ERROR status_fmt [AInt (status_code r)];;
          io_ret false
    end.

(** ** Weekly heartbeat *)

(** The heartbeat block that ends a run: Monday is weekday 0. *)
Definition heartbeat_block (send_heartbeat : IO bool)
    (save_monitor_state : gmap string string → IO unit)
    (monitor_state : gmap string string) : IO (gmap string string) :=
  do today <- date_today_isoformat;
  let last_heartbeat := default EmptyString (monitor_state !! "last_heartbeat_date") in
  do weekday <- date_today_weekday;
  if (weekday =? 0) && negb (bool_decide (last_heartbeat = today)) then
    do sent <- send_heartbeat;
    if sent then
      let monitor_state' := <["last_heartbeat_date" := today]> monitor_state in
      save_monitor_state monitor_state';;
      io_ret monitor_state'
    else io_ret monitor_state
  else io_ret monitor_state.

(** [str(v) if v is not None else d], on the first key whose value is not
    [None]. *)
Fixpoint first_not_none (record : pydict) (keys : list string) : option json :=
  match keys with
  | [] => None
  | key :: rest =>
      match Py.get record key with
      | JNull => first_not_none record rest
      | v => Some v
      end
  end.

(** The first key whose value is a string. *)
Fixpoint first_str (record : pydict) (keys : list string) : option string :=
  match keys with
  | [] => None
  | key :: rest =>
      match Py.get record key with
      | JStr s => Some s
      | _ => first_str record rest
      end
  end.

(** Strings found under [field] in the dict-valued entries of a dict. *)
Definition nested_strs (v : json) (field : string) : list string :=
  match v with
  | JDict d =>
      flat_map (λ entry, match entry with
                         | JDict e => if_str (Py.get e field)
                         | _ => []
                         end) (Py.values d)
  | _ => []
  end.

(** [rows] of the Finances One fetchers, before the [isinstance(r, dict)]
    filter; [None] when [rows] is not a list. *)
Definition finances_rows (data : json) : option (list json) :=
  let rows :=
    match data with
    | JList l => JList l
    | JDict d => Py.or_ (Py.or_ (Py.get d "data") (Py.get d "rows")) (JList [])
    | _ => JList []
    end in
  match rows with
  | JList l => Some l
  | _ => None
  end.

Definition only_dicts (rows : list json) : list pydict :=
  flat_map (λ r, match r with JDict d => [d] | _ => [] end) rows.

(** * monitor_agent.py *)

Module MonitorAgent.

Definition PROJECTS_STATE_FILE : string := "processed_projects.json".
Definition DOCS_STATE_FILE : string := "processed_docs.json".
Definition TENDERS_STATE_FILE : string := "processed_tenders.json".
Definition AWARDS_STATE_FILE : string := "processed_awards.json".
Definition MONITOR_STATE_FILE : string := "monitor_state.json".
Definition TENDER_ASSET_ID : string := "DS00979".
Definition AWARD_ASSET_ID : string := "DS01666".
Definition ENABLE_TENDERS_STREAM : bool := false.
Definition ENABLE_AWARDS_STREAM : bool := false.

Definition KEYWORDS : list string :=
  [
    "GIS"; "Geographic Information System"; "Geospatial"; "Geo-spatial";
    "Spatial"; "Spatial Data"; "Spatial Analysis"; "Spatial Analytics";
    "Spatial Planning"; "Location Intelligence"; "Geo-data";
    "Location Data"; "Location-based"; "Mapping"; "Map"; "Cartography";
    "Topographic"; "Topography"; "Base Map"; "Basemap"; "Remote Sensing";
    "Earth Observation"; "EO Data"; "Satellite"; "Satellite Imagery";
    "Imagery"; "Image Analysis"; "LiDAR"; "Raster Data"; "UAV"; "Drone";
    "Aerial Survey"; "Aerial Photography"; "GNSS"; "GPS"; "Survey";
    "Surveying"; "Land Survey"; "Cadastral"; "Cadastre";
    "Land Administration"; "Land Registration"; "Land Use"; "Parcel";
    "Parcel Mapping"; "Boundary"; "Boundary Mapping"; "Geodetic";
    "Environmental Monitoring"; "Environmental Information System";
    "Natural Resource Mapping"; "Natural Resource Management";
    "Watershed Management"; "Hydrological Modeling"; "Hydrology";
    "Flood Risk Mapping"; "Flood Hazard Mapping"; "Disaster Risk Mapping";
    "Disaster Risk Management"; "DRM Platform"; "Climate Risk Mapping";
    "Climate Risk Assessment"; "Climate Vulnerability";
    "Vulnerability Mapping"; "Coastal Erosion Mapping"; "Ecosystem Mapping";
    "Habitat Mapping"; "Biodiversity Mapping"; "Climate Resilience";
    "Urban Spatial Planning"; "Urban Planning"; "Transport Modeling";
    "Accessibility Analysis"; "Network Analysis"; "Health Mapping";
    "Disease Mapping"; "Epidemiological Mapping"; "Spatial Epidemiology";
    "Disease Hotspot"; "Hotspot Mapping"; "Disease Surveillance";
    "Outbreak Mapping"; "Health Facility Mapping";
    "Service Coverage Mapping"
  ].

Section Agent.
Context `{Builtins}.

Definition load_monitor_state : IO (gmap string string) :=
  _load_state_map MONITOR_STATE_FILE.

Definition save_monitor_state (state : gmap string string) : IO unit :=
  _save_state_map MONITOR_STATE_FILE state.

(** *** Stream 1: projects *)

Definition projects_fetcher : projects_fetcher := {|
  page_params rows_per_page page :=
    [("format", JStr "json"); ("status", JStr "Active");
     ("countrycode_exact", JStr NIGERIA_COUNTRY_CODE);
     ("rows", JNum rows_per_page); ("page", JNum page)];
  msg_no_response := "Failed to fetch projects page %d.";
  msg_http_error := "Projects API error on page %d: %s";
  msg_bad_json := "Failed to parse JSON from Projects API: %s";
  msg_bad_shape := "Unexpected 'projects' structure from API.";
  msg_page := "Projects: page %d -> %d rows (total=%d)."
|}.

Definition fetch_projects_for_nigeria (fuel : nat) (rows_per_page : Z)
    : IO (outcome (list pydict)) :=
  fetch_pages projects_fetcher fuel rows_per_page 1 [].

Definition extract_project_text (project : pydict) : string :=
  let title := Py.or_ (Py.get project "project_name") (JStr EmptyString) in
  let abstract := Py.get project "project_abstract" in
  Str.join text_separator
    (if_str title
     ++ match abstract with
        | JDict a => flat_map if_str (Py.values a)
        | _ => []
        end).

Definition project_matches_keywords (project : pydict) : bool :=
  text_matches_keywords (extract_project_text project) KEYWORDS.

Definition get_project_last_update (project : pydict) : string :=
  match Py.or_ (Py.get project "p2a_updated_date") (JStr EmptyString) with
  | JStr updated => updated
  | _ => EmptyString
  end.

(** [str(project.get("id") or "").strip()]. *)
Definition get_project_id (project : pydict) : string :=
  Str.strip (Py.str (Py.or_ (Py.get project "id") (JStr EmptyString))).

Definition send_project_alert_embed (project : pydict) (is_update : bool)
    : IO bool :=
  let project_id :=
    if Str.is_empty (get_project_id project) then "(unknown)"
    else get_project_id project in
  send_embed "Webhook URL not configured; skipping project alert."
    (ProjectAlert is_update project)
    "Project alert webhook failed after retries." []
    "Sent project %s alert (update=%s)." [AStr project_id; ABool is_update]
    "Project alert webhook returned %s: %s".

Definition projects_stream : stream := {|
  get_id := get_project_id;
  get_last_update := get_project_last_update;
  announce project_id previous_update current_update is_update :=
    if is_update then
      log INFO "Project %s updated (was %s, now %s)."
        [AStr project_id;
         match previous_update with Some p => AStr p | None => ANone end;
         AStr current_update]
    else log INFO "New project %s detected." [AStr project_id];
  send_alert := send_project_alert_embed
|}.

(** *** Stream 2: procurement plan documents *)

Definition fetch_procurement_plans_for_nigeria (rows : Z)
    : IO (outcome (list pydict)) :=
  let params :=
    [("format", JStr "json"); ("rows", JNum rows);
     ("country", JStr "Nigeria"); ("docty_exact", JStr "Procurement Plan")] in
  do response <- get_with_retries WB_WDS_API_URL params MAX_RETRIES;
  match response with
  | None =>
      log ERROR "Failed to fetch procurement plan documents." [];;
      io_ret (Ok [])
  | Some response =>
      if raises_for_status response then
        log ERROR "WDS documents API error: %s" [];;
        io_ret (Ok [])
      else
        match json_body response with
        | None =>
            log ERROR "Failed to parse JSON from WDS documents API: %s" [];;
            io_ret (Ok [])
        | Some (JDict payload) =>
            match Py.or_ (Py.get payload "documents") (JDict []) with
            | JDict documents =>
                let rows_list :=
                  flat_map (λ kv, if bool_decide (kv.1 = "facets") then []
                                  else match kv.2 with
                                       | JDict value => [value]
                                       | _ => []
                                       end) documents in
                log INFO "WDS: fetched %d procurement plan documents for Nigeria."
                    [AInt (len rows_list)];;
                io_ret (Ok rows_list)
            | _ =>
                log WARNING "Unexpected WDS 'documents' structure; skipping." [];;
                io_ret (Ok [])
            end
        | Some _ => io_ret (Raises AttributeError)
        end
  end.

Definition extract_document_text (doc : pydict) : string :=
  Str.join text_separator
    (if_str (Py.get doc "display_title")
     ++ nested_strs (Py.get doc "docna") "docna"
     ++ if_str (Py.get doc "theme")
     ++ if_str (Py.get doc "subsc")
     ++ nested_strs (Py.get doc "sectr") "sector").

Definition document_matches_keywords (doc : pydict) : bool :=
  text_matches_keywords (extract_document_text doc) KEYWORDS.

Definition get_document_id (doc : pydict) : string :=
  match Py.get doc "id" with
  | JNull => EmptyString
  | value => Py.str value
  end.

Definition get_document_last_update (doc : pydict) : string :=
  match Py.or_ (Py.get doc "last_modified_date") (JStr EmptyString) with
  | JStr updated => updated
  | _ => EmptyString
  end.

Definition send_procurement_plan_alert_embed (doc : pydict) (is_update : bool)
    : IO bool :=
  let doc_id :=
    if Str.is_empty (get_document_id doc) then "(unknown)"
    else get_document_id doc in
  send_embed "Webhook URL not configured; skipping document alert."
    (ProcurementPlanAlert is_update doc)
    "Procurement plan alert webhook failed after retries." []
    "Sent procurement plan alert for document %s." [AStr doc_id]
    "Procurement plan alert webhook returned %s: %s".

Definition log_was_now (fmt : string) (record_id : string)
    (previous_update : option string) (current_update : string) : IO unit :=
  log INFO fmt
    [AStr record_id;
     match previous_update with Some p => AStr p | None => ANone end;
     AStr current_update].

Definition docs_stream : stream := {|
  get_id := get_document_id;
  get_last_update := get_document_last_update;
  announce doc_id previous_update current_update _ :=
    log_was_now "New/updated procurement plan %s detected (was %s, now %s)."
      doc_id previous_update current_update;
  send_alert := send_procurement_plan_alert_embed
|}.

(** *** Stream 3: tenders *)

(** Shared body of [fetch_tenders_for_nigeria] and
    [fetch_awards_for_nigeria]. *)
Definition fetch_finances (params : pydict)
    (no_response http_error bad_json bad_shape fetched : string)
    : IO (list pydict) :=
  do response <- get_with_retries WB_FINANCES_DATA_URL params MAX_RETRIES;
  match response with
  | None => log ERROR no_response [];; io_ret []
  | Some response =>
      if raises_for_status response then
        log ERROR http_error [];; io_ret []
      else
        match json_body response with
        | None => log ERROR bad_json [];; io_ret []
        | Some data =>
            match finances_rows data with
            | None => log WARNING bad_shape [];; io_ret []
            | Some rows =>
                log INFO fetched [AInt (len rows)];;
                io_ret (only_dicts rows)
            end
        end
  end.

Definition fetch_tenders_for_nigeria (limit : Z) : IO (list pydict) :=
  fetch_finances
    [("assetId", JStr TENDER_ASSET_ID);
     ("country_code", JStr NIGERIA_COUNTRY_CODE);
     ("q", JStr "GIS geospatial mapping remote sensing land administration");
     ("page", JNum 1); ("page_size", JNum limit)]
    "Failed to fetch procurement notices."
    "Tenders API error: %s"
    "Failed to parse JSON from Tenders API: %s"
    "Unexpected tenders data structure; skipping."
    "Fetched %d procurement notices (raw).".

Definition extract_tender_text (record : pydict) : string :=
  Str.join text_separator
    (flat_map (λ key, if_str (Py.get record key))
       ["notice_title"; "tender_title"; "contract_title"; "description"; "summary"]).

Definition tender_matches_keywords (record : pydict) : bool :=
  text_matches_keywords (extract_tender_text record) KEYWORDS.

Definition get_tender_id (record : pydict) : string :=
  match first_not_none record ["notice_id"; "tender_id"; "contract_id"; "id"] with
  | Some value => Py.str value
  | None => EmptyString
  end.

Definition get_tender_last_update (record : pydict) : string :=
  default EmptyString
    (first_str record
       ["updated_date"; "last_update_date"; "notice_publish_date"; "publish_date"]).

Definition send_tender_alert_embed (record : pydict) : IO bool :=
  let tender_id :=
    if Str.is_empty (get_tender_id record) then "(unknown)"
    else get_tender_id record in
  send_embed "Webhook URL not configured; skipping tender alert."
    (TenderAlert record)
    "Tender alert webhook failed after retries." []
    "Sent tender alert for %s." [AStr tender_id]
    "Tender alert webhook returned %s: %s".

Definition tenders_stream : stream := {|
  get_id := get_tender_id;
  get_last_update := get_tender_last_update;
  announce tender_id previous_update current_update _ :=
    log_was_now "New/updated tender %s detected (was %s, now %s)."
      tender_id previous_update current_update;
  send_alert record _ := send_tender_alert_embed record
|}.

(** *** Stream 4: contract awards *)

Definition fetch_awards_for_nigeria (limit : Z) : IO (list pydict) :=
  fetch_finances
    [("assetId", JStr AWARD_ASSET_ID);
     ("borrower_country_code", JStr NIGERIA_COUNTRY_CODE);
     ("q", JStr "GIS geospatial mapping remote sensing land administration");
     ("page", JNum 1); ("page_size", JNum limit)]
    "Failed to fetch contract awards."
    "Awards API error: %s"
    "Failed to parse JSON from Awards API: %s"
    "Unexpected awards data structure; skipping."
    "Fetched %d contract awards (raw).".

Definition extract_award_text (record : pydict) : string :=
  Str.join text_separator
    (flat_map (λ key, if_str (Py.get record key))
       ["contract_title"; "description"; "procurement_description"; "project_name"]).

Definition award_matches_keywords (record : pydict) : bool :=
  text_matches_keywords (extract_award_text record) KEYWORDS.

Definition get_award_id (record : pydict) : string :=
  match first_not_none record ["contract_id"; "award_id"; "id"] with
  | Some value => Py.str value
  | None => EmptyString
  end.

Definition get_award_last_update (record : pydict) : string :=
  default EmptyString
    (first_str record
       ["updated_date"; "last_update_date"; "award_date"; "contract_sign_date"]).

Definition send_award_alert_embed (record : pydict) : IO bool :=
  let award_id :=
    if Str.is_empty (get_award_id record) then "(unknown)"
    else get_award_id record in
  send_embed "Webhook URL not configured; skipping award alert."
    (AwardAlert record)
    "Award alert webhook failed after retries." []
    "Sent award alert for %s." [AStr award_id]
    "Award alert webhook returned %s: %s".

Definition awards_stream : stream := {|
  get_id := get_award_id;
  get_last_update := get_award_last_update;
  announce award_id previous_update current_update _ :=
    log_was_now "New/updated award %s detected (was %s, now %s)."
      award_id previous_update current_update;
  send_alert record _ := send_award_alert_embed record
|}.

(** *** Heartbeat and orchestration *)

Definition send_discord_heartbeat
    (total_projects total_docs total_tenders total_awards
     project_alerts document_alerts tender_alerts award_alerts : Z) : IO bool :=
  send_embed "Webhook URL not configured; skipping heartbeat."
    (AgentHeartbeat total_projects total_docs total_tenders total_awards
       project_alerts document_alerts tender_alerts award_alerts)
    "Heartbeat webhook failed after retries." []
    "Sent heartbeat message." []
    "Heartbeat webhook returned %s: %s".

(** The projects block of [run_monitor]: fetch, filter, diff, save. *)
Definition projects_block (fuel : nat) (projects_state : gmap string string)
    : IO (outcome (Z * Z)) :=
  log INFO "Fetching active projects for Nigeria..." [];;
  try projects <- fetch_projects_for_nigeria fuel 50;
  let total_projects := len projects in
  log INFO "Projects: %d records." [AInt total_projects];;
  let matching_projects := List.filter project_matches_keywords projects in
  log INFO "Projects: %d GIS-related projects." [AInt (len matching_projects)];;
  do (projects_state', project_alerts) <-
    diff_and_notify projects_stream matching_projects (projects_state, 0);
  _save_state_map PROJECTS_STATE_FILE projects_state';;
  log INFO "Saved %d project entries to %s."
      [AInt (Z.of_nat (size projects_state')); AStr PROJECTS_STATE_FILE];;
  io_ret (Ok (total_projects, project_alerts)).

Definition docs_block : IO (outcome (Z * Z)) :=
  log INFO "Fetching procurement plan documents for Nigeria (WDS)..." [];;
  try docs <- fetch_procurement_plans_for_nigeria 200;
  let total_docs := len docs in
  log INFO "Procurement plans: %d records." [AInt total_docs];;
  let matching_docs := List.filter document_matches_keywords docs in
  log INFO "Procurement plans: %d GIS-related documents." [AInt (len matching_docs)];;
  do docs_state <- _load_state_map DOCS_STATE_FILE;
  do (docs_state', document_alerts) <-
    diff_and_notify docs_stream matching_docs (docs_state, 0);
  _save_state_map DOCS_STATE_FILE docs_state';;
  log INFO "Saved %d procurement plan entries to %s."
      [AInt (Z.of_nat (size docs_state')); AStr DOCS_STATE_FILE];;
  io_ret (Ok (total_docs, document_alerts)).

Definition tenders_block (tenders_state : gmap string string) : IO (Z * Z) :=
  if ENABLE_TENDERS_STREAM then
    log INFO "Fetching procurement notices / tenders for Nigeria..." [];;
    do tenders <- fetch_tenders_for_nigeria 500;
    let total_tenders := len tenders in
    log INFO "Tenders: %d records." [AInt total_tenders];;
    let matching_tenders := List.filter tender_matches_keywords tenders in
    log INFO "Tenders: %d GIS-related notices." [AInt (len matching_tenders)];;
    do (tenders_state', tender_alerts) <-
      diff_and_notify tenders_stream matching_tenders (tenders_state, 0);
    _save_state_map TENDERS_STATE_FILE tenders_state';;
    log INFO "Saved %d tender entries to %s."
        [AInt (Z.of_nat (size tenders_state')); AStr TENDERS_STATE_FILE];;
    io_ret (total_tenders, tender_alerts)
  else
    log INFO "Tenders stream is disabled; skipping Finances One tenders." [];;
    io_ret (0, 0).

Definition awards_block (awards_state : gmap string string) : IO (Z * Z) :=
  if ENABLE_AWARDS_STREAM then
    log INFO "Fetching contract awards for Nigeria..." [];;
    do awards <- fetch_awards_for_nigeria 500;
    let total_awards := len awards in
    log INFO "Awards: %d records." [AInt total_awards];;
    let matching_awards := List.filter award_matches_keywords awards in
    log INFO "Awards: %d GIS-related contract awards." [AInt (len matching_awards)];;
    do (awards_state', award_alerts) <-
      diff_and_notify awards_stream matching_awards (awards_state, 0);
    _save_state_map AWARDS_STATE_FILE awards_state';;
    log INFO "Saved %d award entries to %s."
        [AInt (Z.of_nat (size awards_state')); AStr AWARDS_STATE_FILE];;
    io_ret (total_awards, award_alerts)
  else
    log INFO "Awards stream is disabled; skipping Finances One awards." [];;
    io_ret (0, 0).

Definition run_monitor (fuel : nat) : IO (outcome unit) :=
  log INFO "Loading state files..." [];;
  do projects_state <- _load_state_map PROJECTS_STATE_FILE;
  do tenders_state <- _load_state_map TENDERS_STATE_FILE;
  do awards_state <- _load_state_map AWARDS_STATE_FILE;
  do monitor_state <- load_monitor_state;
  log INFO "Loaded state: %d projects, %d tenders, %d awards."
      [AInt (Z.of_nat (size projects_state)); AInt (Z.of_nat (size tenders_state));
       AInt (Z.of_nat (size awards_state))];;
  try p <- projects_block fuel projects_state;
  try d <- docs_block;
  do t <- tenders_block tenders_state;
  do a <- awards_block awards_state;
  heartbeat_block
    (send_discord_heartbeat p.1 d.1 t.1 a.1 p.2 d.2 t.2 a.2)
    save_monitor_state monitor_state;;
  log INFO "Run complete. Alerts this run -> projects: %d, tenders: %d, awards: %d."
      [AInt p.2; AInt t.2; AInt a.2];;
  io_ret (Ok tt).

End Agent.

End MonitorAgent.

(** * main.py *)

Module Main.

Definition PROCESSED_IDS_FILE : string := "processed_ids.json".
Definition STATE_FILE : string := "monitor_state.json".

Definition KEYWORDS : list string :=
  [
    "GIS"; "Geographic Information System"; "Geospatial"; "Geo-spatial";
    "Spatial"; "Spatial Data"; "Spatial Analysis"; "Spatial Analytics";
    "Spatial Planning"; "Location Intelligence"; "Geo-data";
    "Location Data"; "Location-based"; "Mapping"; "Map"; "Cartography";
    "Topographic"; "Topography"; "Base Map"; "Basemap"; "Remote Sensing";
    "Earth Observation"; "EO Data"; "Satellite"; "Satellite Imagery";
    "Imagery"; "Image Analysis"; "LiDAR"; "Raster Data"; "UAV"; "Drone";
    "Aerial Survey"; "Aerial Photography"; "GNSS"; "GPS"; "Survey";
    "Surveying"; "Land Survey"; "Cadastral"; "Cadastre";
    "Land Administration"; "Land Registration"; "Land Use"; "Parcel";
    "Parcel Mapping"; "Boundary"; "Boundary Mapping"; "Geodetic";
    "Environmental Monitoring"; "Environmental Information System";
    "Natural Resource Mapping"; "Watershed Management";
    "Hydrological Modeling"; "Hydrology"; "Flood Risk Mapping";
    "Flood Hazard Mapping"; "Disaster Risk Mapping";
    "Disaster Risk Management"; "DRM Platform"; "Climate Risk Mapping";
    "Climate Risk Assessment"; "Climate Vulnerability";
    "Vulnerability Mapping"; "Coastal Erosion Mapping"; "Ecosystem Mapping";
    "Habitat Mapping"; "Biodiversity Mapping"; "Urban Spatial Planning";
    "Transport Modeling"; "Accessibility Analysis"; "Network Analysis";
    "Health Mapping"; "Disease Mapping"; "Epidemiological Mapping";
    "Spatial Epidemiology"; "Disease Hotspot"; "Hotspot Mapping";
    "Disease Surveillance"; "Outbreak Mapping"; "Health Facility Mapping";
    "Service Coverage Mapping"
  ].

Section Monitor.
Context `{Builtins}.

Definition load_monitor_state : IO (gmap string string) :=
  load_monitor_state_main STATE_FILE.

Definition save_monitor_state (state : gmap string string) : IO unit :=
  save_with "Failed to save monitor state: %s" [] STATE_FILE state.

Definition load_processed_projects : IO (gmap string string) :=
  _load_state_map PROCESSED_IDS_FILE.

Definition save_processed_projects (projects : gmap string string) : IO unit :=
  save_with "Failed to save processed projects: %s" [] PROCESSED_IDS_FILE projects.

Definition projects_fetcher : projects_fetcher := {|
  page_params rows_per_page page :=
    [("format", JStr "json"); ("status", JStr "Active");
     ("rows", JNum rows_per_page); ("page", JNum page)];
  msg_no_response := "Failed to fetch page %d from World Bank API.";
  msg_http_error := "World Bank API responded with error on page %d: %s";
  msg_bad_json := "Failed to parse JSON from World Bank API: %s";
  msg_bad_shape := "Unexpected 'projects' format from API.";
  msg_page := "Retrieved page %d: %d projects (total=%d)."
|}.

Definition fetch_active_projects_for_nigeria (fuel : nat) (rows_per_page : Z)
    : IO (outcome (list pydict)) :=
  fetch_pages projects_fetcher fuel rows_per_page 1 [].

Definition extract_project_text (project : pydict) : string :=
  let title := Py.or_ (Py.get project "project_name") (JStr EmptyString) in
  let abstract := Py.get project "project_abstract" in
  Str.join text_separator
    (if_str title
     ++ match abstract with
        | JDict a => flat_map if_str (Py.values a)
        | _ => []
        end).

Definition project_matches_keywords (project : pydict) (keywords : list string)
    : bool :=
  let text := extract_project_text project in
  if Str.is_empty text then false
  else any_keyword_in (Str.lower text) keywords.

Definition get_project_last_update (project : pydict) : string :=
  match Py.or_ (Py.get project "p2a_updated_date") (JStr EmptyString) with
  | JStr updated => updated
  | _ => EmptyString
  end.

Definition get_project_id (project : pydict) : string :=
  Str.strip (Py.str (Py.or_ (Py.get project "id") (JStr EmptyString))).

Definition send_discord_heartbeat
    (total_projects matching_projects new_or_updated_projects : Z) : IO bool :=
  send_embed "DISCORD_WEBHOOK_URL is not configured; skipping heartbeat."
    (MonitorHeartbeat total_projects matching_projects new_or_updated_projects)
    "Discord heartbeat request failed after retries." []
    "Sent Discord heartbeat message." []
    "Discord heartbeat returned status %s: %s".

Definition send_discord_embed (project : pydict) : IO bool :=
  let project_id :=
    if Str.is_empty (get_project_id project) then "(unknown)"
    else get_project_id project in
  send_embed "DISCORD_WEBHOOK_URL is not configured; skipping send."
    (ProjectEmbed project)
    "Discord webhook request failed for project %s after retries." [AStr project_id]
    "Sent Discord notification for project %s." [AStr project_id]
    "Discord webhook returned status %s: %s".

Definition projects_stream : stream := {|
  get_id := get_project_id;
  get_last_update := get_project_last_update;
  announce project_id previous_update current_update _ :=
    match previous_update with
    | None =>
        log INFO "Sending notification for NEW project %s..." [AStr project_id]
    | Some previous =>
        log INFO "Sending notification for UPDATED project %s (was %s, now %s)..."
          [AStr project_id; AStr previous; AStr current_update]
    end;
  send_alert project _ := send_discord_embed project
|}.

(** [run_monitor]; each of its three exits runs the heartbeat block. *)
Definition run_monitor (fuel : nat) : IO (outcome unit) :=
  log INFO "Loading processed project metadata..." [];;
  do processed_projects <- load_processed_projects;
  log INFO "Loaded %d processed projects." [AInt (Z.of_nat (size processed_projects))];;
  log INFO "Loading monitor state (for heartbeat)..." [];;
  do state <- load_monitor_state;
  log INFO "Fetching active Nigeria projects from World Bank API..." [];;
  try projects <- fetch_active_projects_for_nigeria fuel 50;
  let total_projects := len projects in
  log INFO "Retrieved %d Nigeria projects (Active)." [AInt total_projects];;
  match projects with
  | [] =>
      log INFO "No active projects returned; nothing to do." [];;
      heartbeat_block (send_discord_heartbeat 0 0 0) save_monitor_state state;;
      io_ret (Ok tt)
  | _ :: _ =>
      let matching_projects :=
        List.filter (λ project, project_matches_keywords project KEYWORDS) projects in
      let matching_count := len matching_projects in
      log INFO "Found %d GIS-related projects in Nigeria." [AInt matching_count];;
      match matching_projects with
      | [] =>
          log INFO "No GIS-related projects found today." [];;
          heartbeat_block (send_discord_heartbeat total_projects 0 0)
            save_monitor_state state;;
          io_ret (Ok tt)
      | _ :: _ =>
          do (processed_projects', new_or_updated_count) <-
            diff_and_notify projects_stream matching_projects (processed_projects, 0);
          log INFO "Completed notifications; %d new/updated projects were notified."
              [AInt new_or_updated_count];;
          save_processed_projects processed_projects';;
          log INFO "Saved %d processed projects to %s."
              [AInt (Z.of_nat (size processed_projects')); AStr PROCESSED_IDS_FILE];;
          heartbeat_block
            (send_discord_heartbeat total_projects matching_count new_or_updated_count)
            save_monitor_state state;;
          io_ret (Ok tt)
      end
  end.

End Monitor.

End Main.

(** ** Vocabulary for statements about runs *)

(** [w'] is [w] after the effects [delta], none of which is a write to
    the disk. *)
Record extends (w w' : World) (delta : list event) : Prop := {
  ext_net : net w' = net w;
  ext_disk : disk w' = disk w;
  ext_writable : writable w' = writable w;
  ext_env : env_webhook_url w' = env_webhook_url w;
  ext_today : today_iso w' = today_iso w;
  ext_weekday : today_weekday w' = today_weekday w;
  ext_trace : trace w' = trace w ++ delta
}.

Definition is_request (e : event) : bool :=
  match e with
  | EvGet _ _ | EvPost _ _ => true
  | _ => false
  end.

Definition is_sleep (e : event) : bool :=
  match e with
  | EvSleep _ => true
  | _ => false
  end.

(** The requests and sleeps of a trace, in order. *)
Definition wire (t : list event) : list event :=
  List.filter (λ e, is_request e || is_sleep e) t.

(** [k] attempts of [request], numbered from [attempt], with the linear
    backoff between consecutive attempts. *)
Definition backoff_schedule (request : event) (attempt : Z) (k : nat) : list event :=
  match k with
  | O => []
  | S k' =>
      request
      :: flat_map (λ j, [EvSleep (RETRY_BACKOFF_SECONDS * j); request])
           (seqZ attempt (Z.of_nat k'))
  end.

(** What a retrying helper called in [w] with [max_retries] has done
    when it returns [res] in [w']. *)
Definition retry_contract (request : event) (max_retries : Z)
    (w : World) (res : option response) (w' : World) : Prop :=
  ∃ (k : nat) (delta : list event),
    extends w w' delta
    ∧ issued w' = (issued w + k)%nat
    ∧ (k ≤ Z.to_nat max_retries)%nat
    ∧ wire delta = backoff_schedule request 1 k
    ∧ (∀ j, (S j < k)%nat → net w (issued w + j)%nat = RequestException)
    ∧ match res with
      | Some r => (0 < k)%nat ∧ net w (issued w + (k - 1))%nat = Reply r
      | None =>
          k = Z.to_nat max_retries
          ∧ ∀ j, (j < k)%nat → net w (issued w + j)%nat = RequestException
      end.

(** *** The diff-and-notify step *)

Section DiffVocabulary.
Context (stm : stream).

(** Announce and send an alert classified by [is_update], and commit
    the marker exactly when the send reports success. *)
Definition notify (record : pydict) (state : gmap string string) (alerts : Z)
    (previous : option string) (is_update : bool) : IO (gmap string string * Z) :=
  announce stm (get_id stm record) previous (get_last_update stm record) is_update;;
  do sent <- send_alert stm record is_update;
  io_ret (if sent then (<[get_id stm record := get_last_update stm record]> state,
                        alerts + 1)
          else (state, alerts)).

(** Commit on success only, for a record whose id is not empty: with
    the current marker recorded nothing happens; otherwise a send is
    attempted after the announcement, and the marker is recorded
    exactly when the send reports success. *)
Definition commit_on_success (record : pydict) (state : gmap string string)
    (alerts : Z) (w : World) : Prop :=
  let id := get_id stm record in
  let current := get_last_update stm record in
  (state !! id = Some current →
     process_record stm record (state, alerts) w = ((state, alerts), w))
  ∧ (state !! id ≠ Some current →
       ∃ (is_update sent : bool) (w1 w2 : World) (state' : gmap string string)
         (alerts' : Z),
         announce stm id (state !! id) current is_update w = (tt, w1)
         ∧ send_alert stm record is_update w1 = (sent, w2)
         ∧ process_record stm record (state, alerts) w = ((state', alerts'), w2)
         ∧ (sent = true → state' = <[id := current]> state ∧ alerts' = alerts + 1)
         ∧ (sent = false → state' = state ∧ alerts' = alerts)
         ∧ (state' !! id = Some current ↔ sent = true)).

(** New, update or unchanged, for a record whose id is not empty. *)
Definition classified (record : pydict) (state : gmap string string)
    (alerts : Z) (w : World) : Prop :=
  let id := get_id stm record in
  let current := get_last_update stm record in
  (state !! id = None →
     process_record stm record (state, alerts) w
     = notify record state alerts None false w)
  ∧ (∀ previous, state !! id = Some previous → previous ≠ current →
       process_record stm record (state, alerts) w
       = notify record state alerts (Some previous) true w)
  ∧ (state !! id = Some current →
       process_record stm record (state, alerts) w = ((state, alerts), w)).

(** Whether processing [record] attempts a send, and what it returns. *)
Definition attempted (record : pydict) (state : gmap string string) (w : World)
    : option bool :=
  let id := get_id stm record in
  let current := get_last_update stm record in
  if Str.is_empty id then None
  else if bool_decide (state !! id = Some current) then None
  else
    let is_update := is_not_none (state !! id) in
    Some (send_alert stm record is_update
            (announce stm id (state !! id) current is_update w).2).1.

(** Results of the sends attempted by one run of the loop, in order. *)
Fixpoint send_log (matching : list pydict) (st : gmap string string * Z)
    (w : World) : list bool :=
  match matching with
  | [] => []
  | record :: rest =>
      let '(st', w') := process_record stm record st w in
      match attempted record st.1 w with
      | Some sent => [sent]
      | None => []
      end ++ send_log rest st' w'
  end.

(** Idempotence: a second run on the same fetch result sends nothing
    and leaves the state of the first run. *)
Definition second_run_is_silent (matching : list pydict)
    (state : gmap string string) (w : World) : Prop :=
  let '((state1, _), w1) := diff_and_notify stm matching (state, 0) w in
  let '((state2, alerts2), _) := diff_and_notify stm matching (state1, 0) w1 in
  alerts2 = 0 ∧ state2 = state1.

(** Records of one fetch that share an id share their marker. *)
Definition consistent_markers (matching : list pydict) : Prop :=
  ∀ r1 r2, r1 ∈ matching → r2 ∈ matching →
    get_id stm r1 = get_id stm r2 → get_last_update stm r1 = get_last_update stm r2.

End DiffVocabulary.

(** ** Sample inputs *)

(** Builtins for records whose ids and counters are strings and numbers
    already, so that neither [repr] nor [int] of a string is consulted. *)
Definition plain_builtins : Builtins :=
  {| py_repr := λ _, "<repr>"; int_of_str := λ _, None |}.

Definition sample_project (id marker : string) : pydict :=
  [("id", JStr id); ("project_name", JStr "Nigeria Land Administration and GIS Project");
   ("p2a_updated_date", JStr marker); ("countrycode", JList [JStr "NG"])].

Definition status_reply (code : Z) : reply :=
  Reply {| status_code := code; json_body := None |}.

(** A Monday on which nothing has been persisted yet, the webhook is
    configured and the network answers as [replies] says. *)
Definition sample_world (replies : nat → reply) : World :=
  mkWorld replies 0 ∅ (λ _, true) (Some "https://discord.test/api/webhooks/1")
          "2024-01-01" 0 [].

(** The webhook answers 500 to the first request and 204 afterwards. *)
Definition fails_once : nat → reply :=
  λ n, match n with O => status_reply 500 | _ => status_reply 204 end.

Definition always_204 : nat → reply := λ _, status_reply 204.

(** *** Effects of a computation *)

(** [w'] is [w] after the effects [delta], which may include writes. *)
Record evolves (w w' : World) (delta : list event) : Prop := {
  evo_net : net w' = net w;
  evo_writable : writable w' = writable w;
  evo_env : env_webhook_url w' = env_webhook_url w;
  evo_today : today_iso w' = today_iso w;
  evo_weekday : today_weekday w' = today_weekday w;
  evo_trace : trace w' = trace w ++ delta
}.

(** Every effect of [m], in any world, satisfies [P]. *)
Definition emits {A} (P : event → Prop) (m : IO A) : Prop :=
  ∀ w, ∃ delta, evolves w (m w).2 delta ∧ Forall P delta.

(** *** Paginated fetch *)


(** The records of [values] that pass the client-side country filter. *)
Definition nigerian (values : list json) : list pydict :=
  flat_map (λ v, match v with
                 | JDict proj =>
                     match Py.or_ (Py.get proj "countrycode") (JList []) with
                     | JList codes =>
                         if Py.str_in NIGERIA_COUNTRY_CODE codes then [proj] else []
                     | _ => []
                     end
                 | _ => []
                 end) values.

(** The record lists Nigeria in a list-valued [countrycode] field. *)
Definition lists_nigeria (record : pydict) : Prop :=
  ∃ codes, Py.get record "countrycode" = JList codes
           ∧ JStr NIGERIA_COUNTRY_CODE ∈ codes.

(** The request carries the server-side region filter. *)
Definition has_region_parameter (e : event) : Prop :=
  match e with
  | EvGet _ params => Py.get params "countrycode_exact" = JStr NIGERIA_COUNTRY_CODE
  | _ => True
  end.

(** The request names no region at all. *)
Definition has_no_region_parameter (e : event) : Prop :=
  match e with
  | EvGet _ params => Forall (λ kv, kv.2 ≠ JStr NIGERIA_COUNTRY_CODE) params
  | _ => True
  end.

Section FetchVocabulary.
Context `{Builtins} (F : projects_fetcher) (rows_per_page : Z).



End FetchVocabulary.

(** *** Heartbeat events *)

(** The lines with which [send_discord_heartbeat] ends, in either
    program: exactly one of them is logged by each call. *)
Definition heartbeat_outcomes : list string :=
  ["Webhook URL not configured; skipping heartbeat.";
   "Heartbeat webhook failed after retries.";
   "Sent heartbeat message.";
   "Heartbeat webhook returned %s: %s";
   "DISCORD_WEBHOOK_URL is not configured; skipping heartbeat.";
   "Discord heartbeat request failed after retries.";
   "Sent Discord heartbeat message.";
   "Discord heartbeat returned status %s: %s"].

Definition heartbeat_successes : list string :=
  ["Sent heartbeat message."; "Sent Discord heartbeat message."].

Definition is_heartbeat_outcome (e : event) : bool :=
  match e with
  | EvLog _ fmt _ => bool_decide (fmt ∈ heartbeat_outcomes)
  | _ => false
  end.

Definition is_heartbeat_success (e : event) : bool :=
  match e with
  | EvLog _ fmt _ => bool_decide (fmt ∈ heartbeat_successes)
  | _ => false
  end.

(** A write of the monitor state file, which both programs name
    [monitor_state.json]. *)
Definition is_monitor_dump (e : event) : bool :=
  match e with
  | EvDump path _ => bool_decide (path = "monitor_state.json")
  | _ => false
  end.

(** A log line that is not the outcome of a heartbeat send. *)
Definition ordinary_fmt (fmt : string) : bool :=
  negb (bool_decide (fmt ∈ heartbeat_outcomes)).

(** What a predicate on events has to accept for code that logs only
    ordinary lines and sleeps to emit only accepted events. *)
Record accepts_ordinary (P : event → Prop) : Prop := {
  acc_log : ∀ lvl fmt args, ordinary_fmt fmt = true → P (EvLog lvl fmt args);
  acc_sleep : ∀ seconds, P (EvSleep seconds)
}.

(** What it has to accept, in addition, for the streams: any request and
    any write of a file other than the monitor state. *)
Record accepts_streams (P : event → Prop) : Prop := {
  acc_get : ∀ url params, P (EvGet url params);
  acc_post : ∀ url body, P (EvPost url body);
  acc_dump : ∀ path mapping, path ≠ "monitor_state.json" → P (EvDump path mapping)
}.

(** An event that has nothing to do with the heartbeat. *)
Definition unrelated_to_heartbeat (e : event) : Prop :=
  is_heartbeat_outcome e = false ∧ is_monitor_dump e = false.

Definition count (f : event → bool) (t : list event) : nat :=
  length (List.filter f t).



(** [heartbeat_block] finds the heartbeat due: today is the heartbeat
    weekday and the recorded heartbeat date is not today. *)
Definition heartbeat_due (monitor_state : gmap string string) (w : World) : bool :=
  (today_weekday w =? 0)
  && negb (bool_decide
             (default EmptyString (monitor_state !! "last_heartbeat_date") = today_iso w)).

(** What the heartbeat block does when run on [monitor_state] in [w]. *)
Definition heartbeat_contract (send_heartbeat : IO bool)
    (save_monitor_state : gmap string string → IO unit)
    (monitor_state : gmap string string) (w : World) : Prop :=
  (heartbeat_due monitor_state w = false →
     heartbeat_block send_heartbeat save_monitor_state monitor_state w
     = (monitor_state, w))
  ∧ (heartbeat_due monitor_state w = true →
       ∃ (sent : bool) (w1 : World),
         send_heartbeat w = (sent, w1)
         ∧ (sent = false →
              heartbeat_block send_heartbeat save_monitor_state monitor_state w
              = (monitor_state, w1))
         ∧ (sent = true →
              heartbeat_block send_heartbeat save_monitor_state monitor_state w
              = (<["last_heartbeat_date" := today_iso w]> monitor_state,
                 (save_monitor_state
                    (<["last_heartbeat_date" := today_iso w]> monitor_state) w1).2))).

(** What a run may leave in the trace about the heartbeat: at most one
    heartbeat send, none unless it is [due], and the monitor state
    written at most as often as a send succeeded, with today's date. *)
Definition heartbeat_trace (due : bool) (today : string) (delta : list event) : Prop :=
  (count is_heartbeat_outcome delta ≤ 1)%nat
  ∧ (due = false → count is_heartbeat_outcome delta = 0%nat)
  ∧ (count is_monitor_dump delta ≤ count is_heartbeat_success delta)%nat
  ∧ Forall (λ e, match e with
                 | EvDump path mapping =>
                     path = "monitor_state.json" →
                     mapping !! "last_heartbeat_date" = Some today
                 | _ => True
                 end) delta.

(** The heartbeat trace of a whole run that loads its monitor state with
    [load]. *)
Definition run_heartbeat_contract {A} (load : IO (gmap string string)) (run : IO A)
    (w : World) : Prop :=
  ∃ delta, evolves w (run w).2 delta
           ∧ heartbeat_trace (heartbeat_due (load w).1 w) (today_iso w) delta.

(** The heartbeat part of the contract, for a computation that was handed
    [monitor_state]. *)
Definition heartbeat_spec {A} (monitor_state : gmap string string) (m : IO A) : Prop :=
  ∀ w, ∃ delta, evolves w (m w).2 delta
                ∧ heartbeat_trace (heartbeat_due monitor_state w) (today_iso w) delta.

(** A computation that only reads and logs ordinary lines. *)
Definition only_reads {A} (m : IO A) : Prop :=
  ∀ w, ∃ delta, extends w (m w).2 delta ∧ Forall unrelated_to_heartbeat delta.


(** * Theorems *)

Lemma starts_with_spec (p s : string) :
  Str.starts_with p s = true ↔ ∃ post, s = p +:+ post.
Proof.
  revert s. induction p as [|a p IH]; intros s; simpl.
  - split; [intros _; by exists s | done].
  - destruct s as [|b s].
    + split; [done | intros [post Hp]; discriminate].
    + destruct (decide (a = b)) as [->|Hne].
      * rewrite IH. split; intros [post Hp]; exists post.
        -- by rewrite Hp.
        -- simpl in Hp. by injection Hp.
      * split; [done | intros [post Hp]; simpl in Hp; injection Hp; congruence].
Qed.

Lemma contains_spec (needle hay : string) :
  Str.contains needle hay = true ↔ Str.occurs_in needle hay.
Proof.
  unfold Str.occurs_in. induction hay as [|c hay IH]; simpl.
  - destruct (Str.starts_with needle EmptyString) eqn:E.
    + apply starts_with_spec in E as [post E]. split; [|done].
      intros _. by exists EmptyString, post.
    + split; [done|]. intros (pre & post & Hp).
      destruct pre; simpl in Hp; [|discriminate].
      assert (Str.starts_with needle EmptyString = true) as E'
        by (apply starts_with_spec; eauto).
      congruence.
  - destruct (Str.starts_with needle (String c hay)) eqn:E.
    + apply starts_with_spec in E as [post E]. split; [|done].
      intros _. by exists EmptyString, post.
    + rewrite IH. split.
      * intros (pre & post & ->). by exists (String c pre), post.
      * intros (pre & post & Hp). destruct pre as [|c' pre]; simpl in Hp.
        -- assert (Str.starts_with needle (String c hay) = true) as E'
             by (apply starts_with_spec; eauto).
           congruence.
        -- injection Hp as -> ->. eauto.
Qed.

Lemma any_keyword_in_spec (lower_text : string) (keywords : list string) :
  any_keyword_in lower_text keywords = true ↔
  ∃ kw, kw ∈ keywords ∧ Str.occurs_in (Str.lower kw) lower_text.
Proof.
  induction keywords as [|kw rest IH]; simpl.
  - split; [done | intros (kw & Hin & _); by apply elem_of_nil in Hin].
  - destruct (Str.contains (Str.lower kw) lower_text) eqn:E.
    + split; [|done]. intros _. exists kw. split; [left|by apply contains_spec].
    + rewrite IH. split.
      * intros (k & Hin & Hk). exists k. split; [by right | done].
      * intros (k & Hin & Hk). apply elem_of_cons in Hin as [->|Hin].
        -- apply contains_spec in Hk. congruence.
        -- eauto.
Qed.

(** C6: the keyword matcher is true exactly when the text is not empty
    and some keyword, lower-cased, occurs anywhere in the lower-cased
    text; for the empty text it is false whatever the keywords; "GIS"
    matches "the logistics team" and does not match "no relevant
    terms". *)
Theorem keyword_matcher_is_unanchored_substring `{Builtins}
    (text : string) (keywords : list string) :
  (text_matches_keywords text keywords = true ↔
     text ≠ EmptyString ∧
     ∃ kw, kw ∈ keywords ∧ Str.occurs_in (Str.lower kw) (Str.lower text))
  ∧ text_matches_keywords EmptyString keywords = false
  ∧ text_matches_keywords "the logistics team" ["GIS"] = true
  ∧ text_matches_keywords "no relevant terms" ["GIS"] = false
  ∧ text_matches_keywords "this project uses gis tools" ["GIS"] = true
  ∧ (∀ project,
       MonitorAgent.project_matches_keywords project
       = text_matches_keywords (MonitorAgent.extract_project_text project)
           MonitorAgent.KEYWORDS)
  ∧ (∀ project,
       Main.project_matches_keywords project keywords
       = text_matches_keywords (Main.extract_project_text project) keywords).
Proof.
  split; [|by repeat split].
  unfold text_matches_keywords. destruct text as [|c text]; simpl Str.is_empty; cbv iota.
  - split; [done | by intros [? _]].
  - rewrite any_keyword_in_spec. split; [by intros ? | by intros [_ ?]].
Qed.

Section StateLoading.
Context `{Builtins}.




End StateLoading.


Lemma extends_refl w : extends w w [].
Proof. split; try done. by rewrite app_nil_r. Qed.

Lemma extends_trans w1 w2 w3 d1 d2 :
  extends w1 w2 d1 → extends w2 w3 d2 → extends w1 w3 (d1 ++ d2).
Proof.
  intros [] []. split; try congruence.
  rewrite ext_trace1, ext_trace0. by rewrite app_assoc.
Qed.

Lemma extends_emit e w : extends w (emit e w) [e].
Proof. by split. Qed.

Lemma extends_perform e w : extends w (perform e w).2 [e].
Proof. by split. Qed.

Lemma extends_bump w w' d : extends w w' d → extends w (bump w') d.
Proof. by intros []. Qed.

Lemma extends_emit_r e w w' d : extends w w' d → extends w (emit e w') (d ++ [e]).
Proof. intros []. split; try done. simpl. by rewrite ext_trace0, app_assoc. Qed.

Lemma wire_app t1 t2 : wire (t1 ++ t2) = wire t1 ++ wire t2.
Proof. unfold wire. by rewrite List.filter_app. Qed.

Section Retries.
Context (request : event) (Hreq : is_request request = true) (verb url : string).

Lemma request_attempts_spec (n : nat) : ∀ (max_retries attempt : Z) (w : World),
  max_retries = attempt + Z.of_nat n - 1 →
  ∃ (k : nat) (delta : list event),
    let '(res, w') :=
      request_attempts (perform request) verb url n max_retries attempt w in
    extends w w' delta
    ∧ issued w' = (issued w + k)%nat
    ∧ (k ≤ n)%nat ∧ ((0 < n)%nat → (0 < k)%nat)
    ∧ wire delta = backoff_schedule request attempt k
    ∧ (∀ j, (S j < k)%nat → net w (issued w + j)%nat = RequestException)
    ∧ match res with
      | Some r => (0 < k)%nat ∧ net w (issued w + (k - 1))%nat = Reply r
      | None => k = n ∧ ∀ j, (j < k)%nat → net w (issued w + j)%nat = RequestException
      end.
Proof.
  induction n as [|n IH]; intros max_retries attempt w Hmax.
  - exists 0%nat, []. simpl. unfold io_ret.
    repeat split; try done; try lia. apply extends_refl.
  - cbn [request_attempts].
    replace (attempt <=? max_retries) with true
      by (symmetry; apply Z.leb_le; lia).
    unfold io_bind at 1. unfold perform at 1.
    destruct (net w (issued w)) as [|r] eqn:Hnet.
    + destruct (decide (n = 0%nat)) as [->|Hn].
      * replace (attempt =? max_retries) with true
          by (symmetry; apply Z.eqb_eq; lia).
        exists 1%nat, [request; EvLog ERROR (verb +:+ " %s failed after %d attempts: %s")
                             [AStr url; AInt attempt]].
        unfold io_bind, log, io_ret.
        split; [|repeat split; try done; try lia].
        -- apply (extends_emit_r _ _ _ [request]), extends_bump, extends_emit.
        -- simpl. lia.
        -- unfold wire. simpl. by rewrite Hreq.
        -- intros j Hj. replace j with 0%nat by lia. by rewrite Nat.add_0_r.
      * replace (attempt =? max_retries) with false
          by (symmetry; apply Z.eqb_neq; lia).
        unfold io_bind at 1. unfold log at 1.
        unfold io_bind at 1. unfold sleep at 1.
        set (w3 := emit _ (emit _ (bump (emit request w)))).
        destruct (IH max_retries (attempt + 1) w3 ltac:(lia)) as (k & delta & IHk).
        destruct (request_attempts _ _ _ _ _ _ w3) as [res w'].
        destruct IHk as (Hext & Hiss & Hle & Hpos & Hwire & Hfail & Hres).
        specialize (Hpos ltac:(lia)).
        exists (S k),
          ([request;
            EvLog WARNING (verb +:+ " %s failed on attempt %d/%d: %s; retrying...")
              [AStr url; AInt attempt; AInt max_retries];
            EvSleep (RETRY_BACKOFF_SECONDS * attempt)] ++ delta).
        assert (extends w w3 [request;
            EvLog WARNING (verb +:+ " %s failed on attempt %d/%d: %s; retrying...")
              [AStr url; AInt attempt; AInt max_retries];
            EvSleep (RETRY_BACKOFF_SECONDS * attempt)]) as Hw3.
        { apply (extends_emit_r _ _ _ [request; _]),
            (extends_emit_r _ _ _ [request]), extends_bump, extends_emit. }
        assert (issued w3 = S (issued w)) as Hi3 by done.
        assert (net w3 = net w) as Hn3 by done.
        split; [by eapply extends_trans|].
        repeat split; try lia.
        -- rewrite wire_app, Hwire.
           replace (wire [request; _; _])
             with [request; EvSleep (RETRY_BACKOFF_SECONDS * attempt)]
             by (unfold wire; simpl; by rewrite Hreq).
           destruct k as [|k]; [lia|]. unfold backoff_schedule.
           rewrite (seqZ_cons attempt (Z.of_nat (S k))) by lia.
           replace (Z.succ attempt) with (attempt + 1) by lia.
           replace (Z.pred (Z.of_nat (S k))) with (Z.of_nat k) by lia.
           done.
        -- intros j Hj. destruct j as [|j]; [by rewrite Nat.add_0_r|].
           rewrite <- Hn3. replace (issued w + S j)%nat with (issued w3 + j)%nat by lia.
           apply Hfail. lia.
        -- destruct res as [r|].
           ++ destruct Hres as [_ Hr]. split; [lia|].
              rewrite <- Hn3, <- Hr. f_equal. lia.
           ++ destruct Hres as [-> Hall]. split; [done|].
              intros j Hj. destruct j as [|j]; [by rewrite Nat.add_0_r|].
              rewrite <- Hn3.
              replace (issued w + S j)%nat with (issued w3 + j)%nat by lia.
              apply Hall. lia.
    + exists 1%nat, [request]. unfold io_ret.
      split; [apply extends_bump, extends_emit|].
      repeat split; try done; try lia.
      * simpl. lia.
      * unfold wire. simpl. by rewrite Hreq.
      * simpl. by rewrite Nat.add_0_r.
Qed.

Lemma request_attempts_contract (max_retries : Z) (w : World) :
  let '(res, w') :=
    request_attempts (perform request) verb url (Z.to_nat max_retries) max_retries 1 w in
  retry_contract request max_retries w res w'.
Proof.
  destruct (decide (0 ≤ max_retries)) as [Hle|Hneg].
  - pose proof (request_attempts_spec (Z.to_nat max_retries) max_retries 1 w
                  ltac:(lia)) as (k & delta & Hs).
    destruct (request_attempts _ _ _ _ _ _ w) as [res w'].
    destruct Hs as (Hext & Hiss & Hk & _ & Hwire & Hfail & Hres).
    exists k, delta. by repeat (split; [assumption|]).
  - replace (Z.to_nat max_retries) with 0%nat by lia. simpl. unfold io_ret.
    exists 0%nat, []. split; [apply extends_refl|].
    repeat split; try done; try lia.
Qed.
End Retries.

(** C4: [get_with_retries] and [post_with_retries] make at most
    [max_retries] attempts ([MAX_RETRIES] is 3); they return [None] only
    when every one of the [max_retries] attempts raised a request
    exception; a response that is received is returned at once, whatever
    its status; and between a failed attempt and the next one they sleep
    [RETRY_BACKOFF_SECONDS] times the number of the failed attempt. *)
Theorem retries_are_bounded_with_linear_backoff
    (url : string) (params : pydict) (body : payload) (max_retries : Z) (w : World) :
  (let '(res, w') := get_with_retries url params max_retries w in
   retry_contract (EvGet url params) max_retries w res w')
  ∧ (let '(res, w') := post_with_retries url body max_retries w in
     retry_contract (EvPost url body) max_retries w res w')
  ∧ Z.to_nat MAX_RETRIES = 3%nat
  ∧ backoff_schedule (EvGet url params) 1 3
    = [EvGet url params; EvSleep 3; EvGet url params; EvSleep 6; EvGet url params].
Proof.
  split; [|split; [|done]].
  - by apply request_attempts_contract.
  - by apply request_attempts_contract.
Qed.

Lemma is_empty_spec (s : string) : Str.is_empty s = true ↔ s = EmptyString.
Proof. by destruct s. Qed.

Lemma is_empty_false (s : string) : s ≠ EmptyString → Str.is_empty s = false.
Proof. by destruct s. Qed.

Section DiffLoop.
Context (stm : stream).
Implicit Types (record : pydict) (state : gmap string string) (alerts : Z) (w : World).

Lemma process_record_no_id record state alerts w :
  get_id stm record = EmptyString →
  process_record stm record (state, alerts) w = ((state, alerts), w).
Proof. intros Hid. unfold process_record. by rewrite Hid. Qed.

Lemma process_record_unchanged record state alerts w :
  state !! get_id stm record = Some (get_last_update stm record) →
  process_record stm record (state, alerts) w = ((state, alerts), w).
Proof.
  intros Hst. unfold process_record.
  destruct (Str.is_empty (get_id stm record)); [done|].
  rewrite Hst. simpl. by rewrite bool_decide_eq_true_2.
Qed.

Lemma process_record_new record state alerts w :
  get_id stm record ≠ EmptyString →
  state !! get_id stm record = None →
  process_record stm record (state, alerts) w = notify stm record state alerts None false w.
Proof.
  intros Hid Hst. unfold process_record, notify.
  rewrite (is_empty_false _ Hid), Hst. simpl.
  unfold io_bind. destruct (announce _ _ _ _ _ w) as [[] w1].
  by destruct (send_alert stm record false w1) as [[] w2].
Qed.

Lemma process_record_update record state alerts w previous :
  get_id stm record ≠ EmptyString →
  state !! get_id stm record = Some previous →
  previous ≠ get_last_update stm record →
  process_record stm record (state, alerts) w
  = notify stm record state alerts (Some previous) true w.
Proof.
  intros Hid Hst Hne. unfold process_record, notify.
  rewrite (is_empty_false _ Hid), Hst. simpl.
  rewrite bool_decide_eq_false_2 by done. simpl.
  unfold io_bind. destruct (announce _ _ _ _ _ w) as [[] w1].
  by destruct (send_alert stm record true w1) as [[] w2].
Qed.

(** C3: for a keyword-matching record with a non-empty id, an id absent
    from the stream state is announced and sent as new ([is_update]
    false) whatever its marker, the empty marker included; an id
    present with a different marker is announced and sent as an update;
    an id present with the equal marker produces no alert. *)
Theorem new_update_unchanged_classification record state alerts w :
  get_id stm record ≠ EmptyString →
  classified stm record state alerts w.
Proof.
  intros Hid. repeat split.
  - by apply process_record_new.
  - intros previous. by apply process_record_update.
  - by apply process_record_unchanged.
Qed.

(** C1: for a keyword-matching record with a non-empty id, if the id is
    in the stream state with the record's current marker then no alert
    is sent and state and world are unchanged; otherwise a send is
    attempted, and the state maps the id to the current marker if and
    only if the send returned success; after a failed send the state is
    exactly what it was, so the next run decides in the same way. *)
Theorem state_committed_iff_send_succeeds record state alerts w :
  get_id stm record ≠ EmptyString →
  commit_on_success stm record state alerts w.
Proof.
  intros Hid. split; [by apply process_record_unchanged|].
  intros Hst.
  destruct (state !! get_id stm record) as [previous|] eqn:Hprev.
  - assert (previous ≠ get_last_update stm record) as Hne by congruence.
    rewrite (process_record_update _ _ _ _ previous Hid Hprev Hne).
    unfold notify, io_bind.
    destruct (announce _ _ _ _ _ w) as [[] w1] eqn:Hann.
    destruct (send_alert stm record true w1) as [sent w2] eqn:Hsend.
    exists true, sent, w1, w2,
      (if sent then <[get_id stm record := get_last_update stm record]> state else state),
      (if sent then alerts + 1 else alerts).
    split; [done|]. split; [done|]. split; [by destruct sent|].
    destruct sent; (split; [done|]); (split; [done|]).
    + by rewrite lookup_insert_eq.
    + split; [congruence | done].
  - rewrite (process_record_new _ _ _ _ Hid Hprev).
    unfold notify, io_bind.
    destruct (announce _ _ _ _ _ w) as [[] w1] eqn:Hann.
    destruct (send_alert stm record false w1) as [sent w2] eqn:Hsend.
    exists false, sent, w1, w2,
      (if sent then <[get_id stm record := get_last_update stm record]> state else state),
      (if sent then alerts + 1 else alerts).
    split; [done|]. split; [done|]. split; [by destruct sent|].
    destruct sent; (split; [done|]); (split; [done|]).
    + by rewrite lookup_insert_eq.
    + split; [congruence | done].
Qed.

Lemma process_record_state_cases record state alerts w :
  let st' := (process_record stm record (state, alerts) w).1.1 in
  st' = state ∨ (get_id stm record ≠ EmptyString
                 ∧ st' = <[get_id stm record := get_last_update stm record]> state).
Proof.
  cbv zeta. destruct (decide (get_id stm record = EmptyString)) as [Hid|Hid].
  { left. by rewrite process_record_no_id. }
  destruct (state !! get_id stm record) as [previous|] eqn:Hprev.
  - destruct (decide (previous = get_last_update stm record)) as [->|Hne].
    + left. by rewrite process_record_unchanged.
    + rewrite (process_record_update _ _ _ _ previous Hid Hprev Hne).
      unfold notify, io_bind. destruct (announce _ _ _ _ _ w) as [[] w1].
      destruct (send_alert stm record true w1) as [[] w2]; simpl; auto.
  - rewrite (process_record_new _ _ _ _ Hid Hprev).
    unfold notify, io_bind. destruct (announce _ _ _ _ _ w) as [[] w1].
    destruct (send_alert stm record false w1) as [[] w2]; simpl; auto.
Qed.

Lemma process_record_frame record state alerts w other :
  other ≠ get_id stm record →
  (process_record stm record (state, alerts) w).1.1 !! other = state !! other.
Proof.
  intros Hother.
  destruct (process_record_state_cases record state alerts w) as [->|[_ ->]];
    [done|]. by rewrite lookup_insert_ne.
Qed.
End DiffLoop.

(** C10: processing one record changes at most the state entry of that
    record's own id: the entry of every other id, present or absent, is
    the same before and after; a record whose id is empty changes no
    entry at all, and a project without an id has the empty id. *)
Theorem only_own_entry_is_mutated `{Builtins} (stm : stream) (record : pydict)
    (state : gmap string string) (alerts : Z) (w : World) :
  let state' := (process_record stm record (state, alerts) w).1.1 in
  (∀ other, other ≠ get_id stm record → state' !! other = state !! other)
  ∧ (get_id stm record = EmptyString → state' = state)
  ∧ (∀ project, Py.get project "id" = JNull →
       MonitorAgent.get_project_id project = EmptyString
       ∧ Main.get_project_id project = EmptyString).
Proof.
  cbv zeta. split; [|split].
  - intros other. apply process_record_frame.
  - intros Hid. by rewrite process_record_no_id.
  - intros project Hnone.
    unfold MonitorAgent.get_project_id, Main.get_project_id. by rewrite Hnone.
Qed.

Section Idempotence.
Context (stm : stream).
Implicit Types (record : pydict) (state : gmap string string) (alerts : Z) (w : World).

Lemma diff_and_notify_cons record rest st w :
  diff_and_notify stm (record :: rest) st w
  = diff_and_notify stm rest (process_record stm record st w).1
      (process_record stm record st w).2.
Proof.
  cbn [diff_and_notify]. unfold io_bind.
  by destruct (process_record stm record st w).
Qed.

Lemma process_record_attempted record state alerts w :
  match attempted stm record state w with
  | None =>
      process_record stm record (state, alerts) w = ((state, alerts), w)
      ∧ (get_id stm record = EmptyString
         ∨ state !! get_id stm record = Some (get_last_update stm record))
  | Some sent =>
      get_id stm record ≠ EmptyString
      ∧ (process_record stm record (state, alerts) w).1
        = if sent
          then (<[get_id stm record := get_last_update stm record]> state, alerts + 1)
          else (state, alerts)
  end.
Proof.
  destruct (decide (get_id stm record = EmptyString)) as [Hid|Hid].
  { assert (attempted stm record state w = None) as ->
      by (unfold attempted; by rewrite Hid).
    split; [by apply process_record_no_id | by left]. }
  destruct (decide (state !! get_id stm record = Some (get_last_update stm record)))
    as [Hst|Hst].
  { assert (attempted stm record state w = None) as ->
      by (unfold attempted; rewrite (is_empty_false _ Hid);
          by rewrite bool_decide_eq_true_2).
    split; [by apply process_record_unchanged | by right]. }
  unfold attempted. rewrite (is_empty_false _ Hid).
  rewrite bool_decide_eq_false_2 by done. split; [done|].
  destruct (state !! get_id stm record) as [previous|] eqn:Hprev.
  - assert (previous ≠ get_last_update stm record) as Hne by congruence.
    rewrite (process_record_update _ _ _ _ _ previous Hid Hprev Hne).
    unfold notify, io_bind. simpl.
    destruct (announce _ _ _ _ _ w) as [[] w1]. simpl.
    by destruct (send_alert stm record true w1) as [[] w2].
  - rewrite (process_record_new _ _ _ _ _ Hid Hprev).
    unfold notify, io_bind. simpl.
    destruct (announce _ _ _ _ _ w) as [[] w1]. simpl.
    by destruct (send_alert stm record false w1) as [[] w2].
Qed.

(** A marker that every later record of its id agrees with survives the
    rest of the loop. *)
Lemma diff_and_notify_keeps matching : ∀ st w id marker,
  (∀ r, r ∈ matching → get_id stm r = id → get_last_update stm r = marker) →
  st.1 !! id = Some marker →
  (diff_and_notify stm matching st w).1.1 !! id = Some marker.
Proof.
  induction matching as [|record rest IH]; intros [state alerts] w id marker Hsame Hst.
  - done.
  - rewrite diff_and_notify_cons. apply IH.
    + intros r Hr. apply Hsame. by right.
    + destruct (process_record_state_cases stm record state alerts w) as [->|[_ ->]];
        [done|].
      destruct (decide (get_id stm record = id)) as [Heq|Hne].
      * rewrite Heq, lookup_insert_eq. f_equal. apply Hsame; [by left | done].
      * by rewrite lookup_insert_ne.
Qed.

(** After a run in which every attempted send succeeded, every record
    with an id is recorded with its marker. *)
Lemma full_delivery_covers matching : ∀ st w,
  consistent_markers stm matching →
  Forall (λ sent, sent = true) (send_log stm matching st w) →
  ∀ r, r ∈ matching → get_id stm r ≠ EmptyString →
    (diff_and_notify stm matching st w).1.1 !! get_id stm r
    = Some (get_last_update stm r).
Proof.
  induction matching as [|record rest IH]; intros [state alerts] w Hcons Hlog r Hr Hid.
  - by apply elem_of_nil in Hr.
  - rewrite diff_and_notify_cons. cbn [send_log] in Hlog.
    destruct (process_record stm record (state, alerts) w) as [st' w'] eqn:Hstep.
    apply Forall_app in Hlog as [Hhead Hrest]. simpl.
    apply elem_of_cons in Hr as [->|Hr].
    + apply diff_and_notify_keeps.
      * intros r' Hr' Heq. apply Hcons; [by right | by left | done].
      * pose proof (process_record_attempted record state alerts w) as Hatt.
        simpl in Hhead.
        destruct (attempted stm record state w) as [sent|].
        -- apply Forall_cons in Hhead as [-> _]. destruct Hatt as [_ Hatt].
           rewrite Hstep in Hatt. simpl in Hatt. subst st'. simpl.
           by rewrite lookup_insert_eq.
        -- destruct Hatt as [Hatt [Hempty|Hcov]]; [done|].
           rewrite Hstep in Hatt. by injection Hatt as -> _.
    + apply IH; try done.
      intros r1 r2 H1 H2. apply Hcons; by right.
Qed.

(** A run on records that are all recorded with their marker does
    nothing at all. *)
Lemma covered_run_is_silent matching : ∀ state alerts w,
  (∀ r, r ∈ matching → get_id stm r ≠ EmptyString →
     state !! get_id stm r = Some (get_last_update stm r)) →
  diff_and_notify stm matching (state, alerts) w = ((state, alerts), w).
Proof.
  induction matching as [|record rest IH]; intros state alerts w Hcov; [done|].
  rewrite diff_and_notify_cons.
  assert (process_record stm record (state, alerts) w = ((state, alerts), w)) as ->.
  { destruct (decide (get_id stm record = EmptyString)) as [Hid|Hid].
    - by apply process_record_no_id.
    - apply process_record_unchanged, Hcov; [by left | done]. }
  apply IH. intros r Hr. apply Hcov. by right.
Qed.

(** C2, amended: when records of the fetch that share an id share their
    marker and every send attempted by the first run reported success,
    a second run on the same fetch result yields zero alerts, leaves
    the state of the first run, and attempts no send. *)
Theorem second_run_is_silent_after_full_delivery matching state w :
  consistent_markers stm matching →
  Forall (λ sent, sent = true) (send_log stm matching (state, 0) w) →
  second_run_is_silent stm matching state w
  ∧ send_log stm matching ((diff_and_notify stm matching (state, 0) w).1.1, 0)
      (diff_and_notify stm matching (state, 0) w).2 = [].
Proof.
  intros Hcons Hlog.
  pose proof (full_delivery_covers matching (state, 0) w Hcons Hlog) as Hcov.
  unfold second_run_is_silent.
  destruct (diff_and_notify stm matching (state, 0) w) as [[state1 alerts1] w1].
  simpl in Hcov. rewrite (covered_run_is_silent matching state1 0 w1 Hcov).
  split; [done|]. simpl.
  clear Hlog Hcons. revert Hcov. generalize 0 as a. generalize w1 as v.
  induction matching as [|record rest IH]; intros v a Hcov; [done|].
  cbn [send_log].
  pose proof (process_record_attempted record state1 a v) as Hatt.
  destruct (attempted stm record state1 v) as [sent|] eqn:Heq.
  - exfalso. destruct Hatt as [Hid _].
    assert (attempted stm record state1 v = None) as Habs; [|congruence].
    clear Heq.
    unfold attempted. rewrite (is_empty_false _ Hid).
    rewrite bool_decide_eq_true_2; [done|]. apply Hcov; [by left | done].
  - destruct Hatt as [-> _]. cbn [fst]. rewrite Heq. simpl.
    apply IH. intros r Hr. apply Hcov. by right.
Qed.
End Idempotence.

(** Idempotence fails when a send of the first run fails: the record is
    alerted by the second run. *)
Lemma failed_send_is_retried_on_second_run :
  ¬ second_run_is_silent (@MonitorAgent.projects_stream plain_builtins)
      [sample_project "P100" "2024-01-01"] ∅ (sample_world fails_once).
Proof.
  unfold second_run_is_silent. intros H.
  vm_compute in H. destruct H as [H _]. discriminate H.
Qed.

(** Idempotence also fails when two records of one fetch share an id and differ
    in their marker, although every send succeeds. *)
Lemma conflicting_markers_alert_again :
  ¬ second_run_is_silent (@Main.projects_stream plain_builtins)
      [sample_project "P100" "2024-01-01"; sample_project "P100" "2024-06-01"]
      ∅ (sample_world always_204).
Proof.
  unfold second_run_is_silent. intros H.
  vm_compute in H. destruct H as [H _]. discriminate H.
Qed.

Lemma second_run_is_silent_witness :
  second_run_is_silent (@MonitorAgent.projects_stream plain_builtins)
    [sample_project "P100" "2024-01-01"; sample_project "P200" "2024-02-02"]
    ∅ (sample_world always_204).
Proof.
  apply (second_run_is_silent_after_full_delivery
           (@MonitorAgent.projects_stream plain_builtins)
           [sample_project "P100" "2024-01-01"; sample_project "P200" "2024-02-02"]
           ∅ (sample_world always_204)).
  - intros r1 r2 H1 H2.
    apply elem_of_cons in H1 as [->|H1]; [|apply list_elem_of_singleton in H1 as ->];
      (apply elem_of_cons in H2 as [->|H2]; [|apply list_elem_of_singleton in H2 as ->]);
      vm_compute; congruence.
  - vm_compute. repeat constructor.
Defined.

Lemma state_committed_witness :
  commit_on_success (@MonitorAgent.projects_stream plain_builtins)
    (sample_project "P100" "2024-01-01") ∅ 0 (sample_world always_204).
Proof.
  apply (state_committed_iff_send_succeeds
           (@MonitorAgent.projects_stream plain_builtins)
           (sample_project "P100" "2024-01-01") ∅ 0 (sample_world always_204)).
  vm_compute. discriminate.
Defined.

Lemma classification_witness :
  classified (@Main.projects_stream plain_builtins)
    (sample_project "P100" "2024-06-01") {["P100" := "2024-01-01"]} 0
    (sample_world always_204).
Proof.
  apply (new_update_unchanged_classification
           (@Main.projects_stream plain_builtins)
           (sample_project "P100" "2024-06-01") {["P100" := "2024-01-01"]} 0
           (sample_world always_204)).
  vm_compute. discriminate.
Defined.

(** ** Effects *)

Lemma extends_evolves w w' delta : extends w w' delta → evolves w w' delta.
Proof. by intros []. Qed.

Lemma evolves_refl w : evolves w w [].
Proof. split; try done. by rewrite app_nil_r. Qed.

Lemma evolves_trans w1 w2 w3 d1 d2 :
  evolves w1 w2 d1 → evolves w2 w3 d2 → evolves w1 w3 (d1 ++ d2).
Proof.
  intros [] []. split; try congruence.
  rewrite evo_trace1, evo_trace0. by rewrite app_assoc.
Qed.

Section Emits.
Context (P : event → Prop).

Lemma emits_ret {A} (a : A) : emits P (io_ret a).
Proof. intros w. exists []. split; [apply evolves_refl | done]. Qed.

Lemma emits_bind {A B} (m : IO A) (k : A → IO B) :
  emits P m → (∀ a, emits P (k a)) → emits P (io_bind m k).
Proof.
  intros Hm Hk w. unfold io_bind.
  destruct (Hm w) as (d1 & He1 & Hp1). destruct (m w) as [a w1]. simpl in *.
  destruct (Hk a w1) as (d2 & He2 & Hp2).
  exists (d1 ++ d2). split; [by eapply evolves_trans | by apply Forall_app].
Qed.

Lemma emits_try_bind {A B} (m : IO (outcome A)) (k : A → IO (outcome B)) :
  emits P m → (∀ a, emits P (k a)) → emits P (try_bind m k).
Proof.
  intros Hm Hk. apply emits_bind; [done|].
  intros [a|e|]; [apply Hk | apply emits_ret | apply emits_ret].
Qed.

Lemma emits_event (e : event) : P e → emits P (λ w, (tt, emit e w)).
Proof.
  intros He w. exists [e]. split; [by split | by apply Forall_singleton].
Qed.

Lemma emits_log lvl fmt args : P (EvLog lvl fmt args) → emits P (log lvl fmt args).
Proof. apply emits_event. Qed.

Lemma emits_sleep seconds : P (EvSleep seconds) → emits P (sleep seconds).
Proof. apply emits_event. Qed.

Lemma emits_perform (e : event) : P e → emits P (perform e).
Proof.
  intros He w. exists [e]. split; [by split | by apply Forall_singleton].
Qed.

Lemma emits_read_file path : emits P (read_file path).
Proof. intros w. exists []. split; [apply evolves_refl | done]. Qed.

Lemma emits_write_file path mapping :
  P (EvDump path mapping) → emits P (write_file path mapping).
Proof.
  intros He w. unfold write_file. destruct (writable w path).
  - exists [EvDump path mapping]. split; [by split | by apply Forall_singleton].
  - exists []. split; [apply evolves_refl | done].
Qed.

Lemma emits_webhook_url : emits P DISCORD_WEBHOOK_URL.
Proof. intros w. exists []. split; [apply evolves_refl | done]. Qed.

Lemma emits_today : emits P date_today_isoformat.
Proof. intros w. exists []. split; [apply evolves_refl | done]. Qed.

Lemma emits_weekday : emits P date_today_weekday.
Proof. intros w. exists []. split; [apply evolves_refl | done]. Qed.

Lemma emits_request_attempts (request : event) verb url fuel :
  P request →
  (∀ lvl args, P (EvLog lvl (verb +:+ " %s failed after %d attempts: %s") args)) →
  (∀ lvl args,
     P (EvLog lvl (verb +:+ " %s failed on attempt %d/%d: %s; retrying...") args)) →
  (∀ seconds, P (EvSleep seconds)) →
  ∀ max_retries attempt,
    emits P (request_attempts (perform request) verb url fuel max_retries attempt).
Proof.
  intros Hreq Herr Hwarn Hsleep max_retries.
  induction fuel as [|fuel IH]; intros attempt; cbn [request_attempts].
  - apply emits_ret.
  - destruct (attempt <=? max_retries); [|apply emits_ret].
    apply emits_bind; [by apply emits_perform|].
    intros [|r]; [|apply emits_ret].
    destruct (attempt =? max_retries).
    + apply emits_bind; [apply emits_log, Herr | intros _; apply emits_ret].
    + apply emits_bind; [apply emits_log, Hwarn | intros _].
      apply emits_bind; [apply emits_sleep, Hsleep | intros _]. apply IH.
Qed.
End Emits.

(** ** Paginated fetch *)

Lemma keep_nigeria_spec (values : list json) : ∀ all all',
  keep_nigeria values all = inr all' → all' = all ++ nigerian values.
Proof.
  induction values as [|v values IH]; intros all all' Hk; simpl in Hk.
  - injection Hk as <-. simpl. by rewrite app_nil_r.
  - destruct v as [| | | | |proj]; try discriminate. cbn [nigerian flat_map].
    fold (nigerian values).
    destruct (Py.or_ (Py.get proj "countrycode") (JList [])) as [| | | |codes|];
      try (by apply IH).
    destruct (Py.str_in NIGERIA_COUNTRY_CODE codes).
    + rewrite (IH _ _ Hk). by rewrite <- app_assoc.
    + by apply IH.
Qed.

Lemma str_in_spec (x : string) (l : list json) :
  Py.str_in x l = true ↔ JStr x ∈ l.
Proof.
  unfold Py.str_in. rewrite existsb_exists. split.
  - intros (y & Hin & Hy). apply list_elem_of_In in Hin.
    destruct y; simpl in Hy; try discriminate.
    apply bool_decide_eq_true in Hy. by subst.
  - intros Hin. exists (JStr x). split; [by apply list_elem_of_In|].
    simpl. by apply bool_decide_eq_true.
Qed.

Lemma nigerian_lists_nigeria (values : list json) :
  Forall lists_nigeria (nigerian values).
Proof.
  induction values as [|v values IH]; [done|].
  cbn [nigerian flat_map]. fold (nigerian values). apply Forall_app. split; [|done].
  destruct v as [| | | | |proj]; try done.
  destruct (Py.or_ (Py.get proj "countrycode") (JList [])) as [| | | |codes|] eqn:Hor;
    try done.
  destruct (Py.str_in NIGERIA_COUNTRY_CODE codes) eqn:Hin; [|done].
  apply Forall_singleton. exists codes. split; [|by apply str_in_spec].
  unfold Py.or_ in Hor. destruct (Py.truthy (Py.get proj "countrycode")); [done|].
  injection Hor as <-. discriminate Hin.
Qed.

Section Fetch.
Context `{Builtins} (F : projects_fetcher) (rows_per_page : Z).





End Fetch.


(** ** Effects of the fetch *)

Lemma evolves_delta_unique w w' d1 d2 : evolves w w' d1 → evolves w w' d2 → d1 = d2.
Proof.
  intros [] []. rewrite evo_trace0 in evo_trace1. by apply app_inv_head in evo_trace1.
Qed.

Lemma effects_bind {A B} (Q1 Q2 : list event → Prop) (m : IO A) (k : A → IO B) w :
  (∃ d1, evolves w (m w).2 d1 ∧ Q1 d1) →
  (∀ a w1, ∃ d2, evolves w1 (k a w1).2 d2 ∧ Q2 d2) →
  ∃ d1 d2, evolves w (io_bind m k w).2 (d1 ++ d2) ∧ Q1 d1 ∧ Q2 d2.
Proof.
  intros (d1 & He1 & H1) Hk. unfold io_bind. destruct (m w) as [a w1]. simpl in *.
  destruct (Hk a w1) as (d2 & He2 & H2).
  exists d1, d2. split; [by eapply evolves_trans | done].
Qed.

Lemma io_bind_assoc {A B C} (m : IO A) (k1 : A → IO B) (k2 : B → IO C) w :
  io_bind (io_bind m k1) k2 w = io_bind m (λ a, io_bind (k1 a) k2) w.
Proof. unfold io_bind. by destruct (m w). Qed.

Ltac ordinary := vm_compute; reflexivity.

Ltac emits_step :=
  first
    [ apply emits_ret
    | apply emits_bind; [|intros ?]
    | apply emits_try_bind; [|intros ?]
    | apply emits_log; apply acc_log; [assumption | ordinary]
    | apply emits_sleep; apply acc_sleep; assumption
    | apply emits_read_file
    | apply emits_webhook_url
    | apply emits_today
    | apply emits_weekday
    | match goal with
      | |- emits _ (match ?x with _ => _ end) => destruct x
      end ].

Section OrdinaryEffects.
Context (P : event → Prop) (HP : accepts_ordinary P).

Lemma emits_get_with_retries url params max_retries :
  P (EvGet url params) → emits P (get_with_retries url params max_retries).
Proof.
  intros Hget. apply emits_request_attempts; try done.
  - intros lvl args. apply acc_log; [done | ordinary].
  - intros lvl args. apply acc_log; [done | ordinary].
  - apply acc_sleep. done.
Qed.

Lemma emits_post_with_retries url body max_retries :
  P (EvPost url body) → emits P (post_with_retries url body max_retries).
Proof.
  intros Hpost. apply emits_request_attempts; try done.
  - intros lvl args. apply acc_log; [done | ordinary].
  - intros lvl args. apply acc_log; [done | ordinary].
  - apply acc_sleep. done.
Qed.

Context `{Builtins} (F : projects_fetcher) (rows_per_page : Z).
Context (HF1 : ordinary_fmt (msg_no_response F) = true)
        (HF2 : ordinary_fmt (msg_http_error F) = true)
        (HF3 : ordinary_fmt (msg_bad_json F) = true)
        (HF4 : ordinary_fmt (msg_bad_shape F) = true)
        (HF5 : ordinary_fmt (msg_page F) = true)
        (Hget : ∀ page, P (EvGet WB_PROJECTS_API_URL (page_params F rows_per_page page))).

Lemma emits_fetch_page page all : emits P (fetch_page F rows_per_page page all).
Proof.
  unfold fetch_page.
  apply emits_bind; [by apply emits_get_with_retries|]. intros response.
  repeat first
    [ apply emits_log; apply acc_log; [assumption | assumption]
    | emits_step ].
Qed.

Lemma emits_fetch_pages fuel : ∀ page all,
  emits P (fetch_pages F fuel rows_per_page page all).
Proof.
  induction fuel as [|fuel IH]; intros page all; cbn [fetch_pages].
  - apply emits_ret.
  - apply emits_bind; [apply emits_fetch_page|].
    intros [result|all'|e]; [apply emits_ret | apply IH | apply emits_ret].
Qed.

(** Each iteration asks for its page. *)
Lemma fetch_pages_requests_page fuel page all w :
  ∃ delta, evolves w (fetch_pages F (S fuel) rows_per_page page all w).2 delta
           ∧ Forall P delta
           ∧ EvGet WB_PROJECTS_API_URL (page_params F rows_per_page page) ∈ delta.
Proof.
  cbn [fetch_pages]. unfold fetch_page. rewrite io_bind_assoc.
  set (request := EvGet WB_PROJECTS_API_URL (page_params F rows_per_page page)).
  match goal with
  | |- context [io_bind ?m ?k w] =>
      destruct (effects_bind (λ d, Forall P d ∧ request ∈ d) (Forall P) m k w)
        as (d1 & d2 & Hevo & [Hp1 Hin] & Hp2)
  end.
  - destruct (emits_get_with_retries WB_PROJECTS_API_URL
                (page_params F rows_per_page page) MAX_RETRIES (Hget page) w)
      as (d & Hd & HPd).
    exists d. split; [done|]. split; [done|].
    pose proof (request_attempts_contract request eq_refl "GET" WB_PROJECTS_API_URL
                  MAX_RETRIES w) as Hc.
    unfold get_with_retries, requests_get in Hd. fold request in Hd.
    destruct (request_attempts _ _ _ _ _ _ w) as [res w'].
    destruct Hc as (k & d' & Hext & _ & _ & Hwire & _ & Hres).
    rewrite (evolves_delta_unique _ _ _ _ Hd (extends_evolves _ _ _ Hext)).
    assert (request ∈ wire d') as Hw.
    { rewrite Hwire. destruct k as [|k]; [|by left].
      destruct res; [lia | by destruct Hres]. }
    unfold wire in Hw. apply list_elem_of_In, filter_In in Hw as [Hw _].
    by apply list_elem_of_In.
  - intros response. apply emits_bind.
    + repeat first
        [ apply emits_log; apply acc_log; [assumption | assumption]
        | emits_step ].
    + intros [result|all'|e];
        [apply emits_ret | apply emits_fetch_pages | apply emits_ret].
  - exists (d1 ++ d2). split; [done|]. split; [by apply Forall_app|].
    apply elem_of_app. by left.
Qed.
End OrdinaryEffects.

Lemma nigerian_app (v1 v2 : list json) : nigerian (v1 ++ v2) = nigerian v1 ++ nigerian v2.
Proof. unfold nigerian. apply flat_map_app. Qed.

Section ClientSideFilter.
Context `{Builtins} (F : projects_fetcher) (rows_per_page : Z).

Lemma fetch_page_kept page all w :
  match (fetch_page F rows_per_page page all w).1 with
  | Break a | Continue a => ∃ values, a = all ++ nigerian values
  | Throw _ => True
  end.
Proof.
  assert (∃ values, all = all ++ nigerian values) as Hsame
    by (exists []; by rewrite app_nil_r).
  unfold fetch_page, io_bind, log, io_ret.
  destruct (get_with_retries _ _ _ w) as [[r|] w1]; simpl; [|done].
  destruct (raises_for_status r); [done|].
  destruct (json_body r) as [[| | | | |payload]|]; try done.
  destruct (Py.int _) as [|total]; [done|].
  destruct (Py.int _) as [|rows]; [done|].
  destruct (Py.or_ (Py.get payload "projects") (JDict []))
    as [| | | | |projects]; try done.
  destruct (keep_nigeria _ _) as [|kept] eqn:Hkeep; [done|].
  apply keep_nigeria_spec in Hkeep.
  destruct (_ || _); simpl; eauto.
Qed.

Lemma fetch_pages_kept fuel : ∀ page all w l,
  (fetch_pages F fuel rows_per_page page all w).1 = Ok l →
  ∃ values, l = all ++ nigerian values.
Proof.
  induction fuel as [|fuel IH]; intros page all w l; cbn [fetch_pages]; [done|].
  unfold io_bind. pose proof (fetch_page_kept page all w) as Hpage.
  destruct (fetch_page F rows_per_page page all w) as [[a|a|e] w1]; simpl in *.
  - intros [= <-]. done.
  - intros Hrest. destruct Hpage as [v1 ->].
    destruct (IH _ _ _ _ Hrest) as [v2 ->].
    exists (v1 ++ v2). by rewrite nigerian_app, app_assoc.
  - done.
Qed.

Lemma fetched_records_list_nigeria fuel w l :
  (fetch_pages F fuel rows_per_page 1 [] w).1 = Ok l → Forall lists_nigeria l.
Proof.
  intros Hl. destruct (fetch_pages_kept _ _ _ _ _ Hl) as [values ->].
  apply nigerian_lists_nigeria.
Qed.
End ClientSideFilter.

Lemma region_parameter_accepts_ordinary : accepts_ordinary has_region_parameter.
Proof. by split. Qed.

Lemma no_region_parameter_accepts_ordinary : accepts_ordinary has_no_region_parameter.
Proof. by split. Qed.

(** C8: both projects fetchers return only records whose list-valued
    [countrycode] contains "NG"; every page request of
    [monitor_agent.py] carries the server-side region parameter
    [countrycode_exact=NG]; the page requests of [main.py], of which
    there is at least one, carry no region parameter at all. *)
Theorem region_filtering_of_the_two_fetchers `{Builtins}
    (fuel : nat) (rows_per_page : Z) (w : World) :
  (∀ l, (MonitorAgent.fetch_projects_for_nigeria fuel rows_per_page w).1 = Ok l →
        Forall lists_nigeria l)
  ∧ (∀ l, (Main.fetch_active_projects_for_nigeria fuel rows_per_page w).1 = Ok l →
          Forall lists_nigeria l)
  ∧ (∃ delta,
       evolves w (MonitorAgent.fetch_projects_for_nigeria (S fuel) rows_per_page w).2 delta
       ∧ Forall has_region_parameter delta
       ∧ EvGet WB_PROJECTS_API_URL
           [("format", JStr "json"); ("status", JStr "Active");
            ("countrycode_exact", JStr "NG");
            ("rows", JNum rows_per_page); ("page", JNum 1)] ∈ delta)
  ∧ (∃ delta,
       evolves w (Main.fetch_active_projects_for_nigeria (S fuel) rows_per_page w).2 delta
       ∧ Forall has_no_region_parameter delta
       ∧ EvGet WB_PROJECTS_API_URL
           [("format", JStr "json"); ("status", JStr "Active");
            ("rows", JNum rows_per_page); ("page", JNum 1)] ∈ delta).
Proof.
  split; [|split; [|split]].
  - intros l. apply fetched_records_list_nigeria.
  - intros l. apply fetched_records_list_nigeria.
  - apply (fetch_pages_requests_page has_region_parameter
             region_parameter_accepts_ordinary MonitorAgent.projects_fetcher);
      first [ordinary | intros page; reflexivity].
  - apply (fetch_pages_requests_page has_no_region_parameter
             no_region_parameter_accepts_ordinary Main.projects_fetcher);
      first [ordinary | intros page; simpl; repeat constructor; discriminate].
Qed.

(** ** Heartbeat *)

Lemma heartbeat_block_contract send_heartbeat save_monitor_state monitor_state w :
  heartbeat_contract send_heartbeat save_monitor_state monitor_state w.
Proof.
  unfold heartbeat_contract, heartbeat_block, heartbeat_due, io_bind,
    date_today_isoformat, date_today_weekday, io_ret.
  split.
  - by intros ->.
  - intros ->. destruct (send_heartbeat w) as [sent w1] eqn:Hsend.
    exists sent, w1. split; [done|]. split; intros ->; [done|].
    by destruct (save_monitor_state _ w1).
Qed.

Lemma count_app f t1 t2 : count f (t1 ++ t2) = (count f t1 + count f t2)%nat.
Proof. unfold count. by rewrite List.filter_app, length_app. Qed.

Lemma success_is_outcome e : is_heartbeat_success e = true → is_heartbeat_outcome e = true.
Proof.
  destruct e as [| | |lvl fmt args|]; try done. simpl.
  intros Hs%bool_decide_eq_true. apply bool_decide_eq_true.
  unfold heartbeat_successes in Hs. unfold heartbeat_outcomes.
  repeat (apply elem_of_cons in Hs as [->|Hs]; [set_solver|]).
  by apply elem_of_nil in Hs.
Qed.

Lemma unrelated_accepts_ordinary : accepts_ordinary unrelated_to_heartbeat.
Proof.
  split.
  - intros lvl fmt args Hfmt. split; [|done]. simpl.
    unfold ordinary_fmt in Hfmt. by apply negb_true_iff in Hfmt.
  - done.
Qed.

Lemma unrelated_counts delta :
  Forall unrelated_to_heartbeat delta →
  count is_heartbeat_outcome delta = 0%nat
  ∧ count is_monitor_dump delta = 0%nat
  ∧ count is_heartbeat_success delta = 0%nat.
Proof.
  induction 1 as [|e delta [Ho Hd] _ (IH1 & IH2 & IH3)]; [done|].
  unfold count in *. simpl. rewrite Ho, Hd.
  destruct (is_heartbeat_success e) eqn:Hs.
  - apply success_is_outcome in Hs. congruence.
  - done.
Qed.

Lemma unrelated_heartbeat_trace due today delta :
  Forall unrelated_to_heartbeat delta → heartbeat_trace due today delta.
Proof.
  intros Hd. destruct (unrelated_counts delta Hd) as (H1 & H2 & H3).
  unfold heartbeat_trace. rewrite H1, H2, H3. repeat split; try lia.
  eapply Forall_impl; [done|]. intros [| | | |path mapping] [_ Hdump]; try done.
  simpl in Hdump. apply bool_decide_eq_false in Hdump. done.
Qed.

Lemma heartbeat_trace_app_l due today d1 d2 :
  Forall unrelated_to_heartbeat d1 → heartbeat_trace due today d2 →
  heartbeat_trace due today (d1 ++ d2).
Proof.
  intros H1 (Ha & Hb & Hc & Hd).
  destruct (unrelated_counts d1 H1) as (K1 & K2 & K3).
  pose proof (unrelated_heartbeat_trace due today d1 H1) as (_ & _ & _ & Hd1).
  unfold heartbeat_trace. rewrite !count_app, K1, K2, K3.
  repeat split; try done. by apply Forall_app.
Qed.

Lemma heartbeat_trace_app_r due today d1 d2 :
  heartbeat_trace due today d1 → Forall unrelated_to_heartbeat d2 →
  heartbeat_trace due today (d1 ++ d2).
Proof.
  intros (Ha & Hb & Hc & Hd) H2.
  destruct (unrelated_counts d2 H2) as (K1 & K2 & K3).
  pose proof (unrelated_heartbeat_trace due today d2 H2) as (_ & _ & _ & Hd2).
  unfold heartbeat_trace. rewrite !count_app, K1, K2, K3, !Nat.add_0_r.
  repeat split; try done. by apply Forall_app.
Qed.

Lemma unrelated_accepts_streams : accepts_streams unrelated_to_heartbeat.
Proof.
  split; try done.
  intros path mapping Hpath. split; [done|]. simpl. by apply bool_decide_eq_false.
Qed.

Ltac streams_step :=
  first
    [ apply emits_get_with_retries; [assumption | apply acc_get; assumption]
    | apply emits_post_with_retries; [assumption | apply acc_post; assumption]
    | apply emits_write_file; apply acc_dump; [assumption | discriminate]
    | apply emits_log; apply acc_log; [assumption | assumption]
    | emits_step ].

Section StreamEffects.
Context (P : event → Prop) (HS : accepts_streams P) (HP : accepts_ordinary P).

Lemma emits_save_with fmt args path mapping :
  ordinary_fmt fmt = true → path ≠ "monitor_state.json" →
  emits P (save_with fmt args path mapping).
Proof.
  intros Hfmt Hpath. unfold save_with.
  apply emits_bind; [by apply emits_write_file, acc_dump|].
  intros [|]; [apply emits_ret | by apply emits_log, acc_log].
Qed.

Lemma emits_send_embed skip_fmt body failed_fmt failed_args sent_fmt sent_args
    status_fmt :
  ordinary_fmt skip_fmt = true → ordinary_fmt failed_fmt = true →
  ordinary_fmt sent_fmt = true → ordinary_fmt status_fmt = true →
  emits P (send_embed skip_fmt body failed_fmt failed_args sent_fmt sent_args
             status_fmt).
Proof. intros H1 H2 H3 H4. unfold send_embed. repeat streams_step. Qed.

Lemma emits_diff_and_notify (stm : stream) :
  (∀ id previous current is_update,
     emits P (announce stm id previous current is_update)) →
  (∀ record is_update, emits P (send_alert stm record is_update)) →
  ∀ matching st, emits P (diff_and_notify stm matching st).
Proof.
  intros Hann Hsend matching.
  induction matching as [|record rest IH]; intros st; cbn [diff_and_notify].
  - apply emits_ret.
  - apply emits_bind; [|intros st'; apply IH].
    unfold process_record. destruct st as [state alerts].
    repeat first [apply Hann | apply Hsend | streams_step].
Qed.

Context `{Builtins}.

Lemma emits_load_state_map path : emits P (_load_state_map path).
Proof. unfold _load_state_map. repeat streams_step. Qed.

Lemma emits_load_monitor_state_main path : emits P (load_monitor_state_main path).
Proof. unfold load_monitor_state_main. repeat streams_step. Qed.

Lemma emits_agent_projects matching st :
  emits P (diff_and_notify MonitorAgent.projects_stream matching st).
Proof.
  apply emits_diff_and_notify.
  - intros id previous current is_update. simpl. repeat streams_step.
  - intros record is_update. simpl. unfold MonitorAgent.send_project_alert_embed.
    apply emits_send_embed; ordinary.
Qed.

Lemma emits_agent_docs matching st :
  emits P (diff_and_notify MonitorAgent.docs_stream matching st).
Proof.
  apply emits_diff_and_notify.
  - intros id previous current is_update. simpl. unfold MonitorAgent.log_was_now.
    repeat streams_step.
  - intros record is_update. simpl.
    unfold MonitorAgent.send_procurement_plan_alert_embed.
    apply emits_send_embed; ordinary.
Qed.

Lemma emits_agent_tenders matching st :
  emits P (diff_and_notify MonitorAgent.tenders_stream matching st).
Proof.
  apply emits_diff_and_notify.
  - intros id previous current is_update. simpl. unfold MonitorAgent.log_was_now.
    repeat streams_step.
  - intros record is_update. simpl. unfold MonitorAgent.send_tender_alert_embed.
    apply emits_send_embed; ordinary.
Qed.

Lemma emits_agent_awards matching st :
  emits P (diff_and_notify MonitorAgent.awards_stream matching st).
Proof.
  apply emits_diff_and_notify.
  - intros id previous current is_update. simpl. unfold MonitorAgent.log_was_now.
    repeat streams_step.
  - intros record is_update. simpl. unfold MonitorAgent.send_award_alert_embed.
    apply emits_send_embed; ordinary.
Qed.

Lemma emits_main_projects matching st :
  emits P (diff_and_notify Main.projects_stream matching st).
Proof.
  apply emits_diff_and_notify.
  - intros id previous current is_update. simpl. repeat streams_step.
  - intros record is_update. simpl. unfold Main.send_discord_embed.
    apply emits_send_embed; ordinary.
Qed.

Lemma emits_agent_fetch_projects fuel rows_per_page :
  emits P (MonitorAgent.fetch_projects_for_nigeria fuel rows_per_page).
Proof.
  apply emits_fetch_pages; try done; try ordinary. intros page. by apply acc_get.
Qed.

Lemma emits_main_fetch_projects fuel rows_per_page :
  emits P (Main.fetch_active_projects_for_nigeria fuel rows_per_page).
Proof.
  apply emits_fetch_pages; try done; try ordinary. intros page. by apply acc_get.
Qed.

Lemma emits_fetch_procurement_plans rows :
  emits P (MonitorAgent.fetch_procurement_plans_for_nigeria rows).
Proof. unfold MonitorAgent.fetch_procurement_plans_for_nigeria. repeat streams_step. Qed.

Lemma emits_fetch_finances params m1 m2 m3 m4 m5 :
  ordinary_fmt m1 = true → ordinary_fmt m2 = true → ordinary_fmt m3 = true →
  ordinary_fmt m4 = true → ordinary_fmt m5 = true →
  emits P (MonitorAgent.fetch_finances params m1 m2 m3 m4 m5).
Proof. intros. unfold MonitorAgent.fetch_finances. repeat streams_step. Qed.

Lemma emits_projects_block fuel projects_state :
  emits P (MonitorAgent.projects_block fuel projects_state).
Proof.
  unfold MonitorAgent.projects_block.
  repeat first
    [ apply emits_agent_fetch_projects
    | apply emits_agent_projects
    | apply emits_save_with; [ordinary | discriminate]
    | streams_step ].
Qed.

Lemma emits_docs_block : emits P MonitorAgent.docs_block.
Proof.
  unfold MonitorAgent.docs_block.
  repeat first
    [ apply emits_fetch_procurement_plans
    | apply emits_agent_docs
    | apply emits_load_state_map
    | apply emits_save_with; [ordinary | discriminate]
    | streams_step ].
Qed.

Lemma emits_tenders_block tenders_state :
  emits P (MonitorAgent.tenders_block tenders_state).
Proof.
  unfold MonitorAgent.tenders_block.
  repeat first
    [ apply emits_fetch_finances; ordinary
    | apply emits_agent_tenders
    | apply emits_save_with; [ordinary | discriminate]
    | streams_step ].
Qed.

Lemma emits_awards_block awards_state :
  emits P (MonitorAgent.awards_block awards_state).
Proof.
  unfold MonitorAgent.awards_block.
  repeat first
    [ apply emits_fetch_finances; ordinary
    | apply emits_agent_awards
    | apply emits_save_with; [ordinary | discriminate]
    | streams_step ].
Qed.
End StreamEffects.

(** ** The heartbeat send and the heartbeat block *)

Lemma count_singleton f e : count f [e] = if f e then 1%nat else 0%nat.
Proof. unfold count. simpl. by destruct (f e). Qed.

Section HeartbeatSend.
Context (skip_fmt failed_fmt sent_fmt status_fmt : string) (body : payload)
        (failed_args sent_args : list logarg).
Context (Hskip : skip_fmt ∈ heartbeat_outcomes ∧ skip_fmt ∉ heartbeat_successes)
        (Hfailed : failed_fmt ∈ heartbeat_outcomes ∧ failed_fmt ∉ heartbeat_successes)
        (Hsent : sent_fmt ∈ heartbeat_outcomes ∧ sent_fmt ∈ heartbeat_successes)
        (Hstatus : status_fmt ∈ heartbeat_outcomes ∧ status_fmt ∉ heartbeat_successes).

Lemma heartbeat_send_effects w :
  ∃ delta,
    evolves w
      (send_embed skip_fmt body failed_fmt failed_args sent_fmt sent_args status_fmt
         w).2 delta
    ∧ count is_heartbeat_outcome delta = 1%nat
    ∧ count is_monitor_dump delta = 0%nat
    ∧ count is_heartbeat_success delta
      = (if (send_embed skip_fmt body failed_fmt failed_args sent_fmt sent_args
               status_fmt w).1
         then 1 else 0)%nat
    ∧ Forall (λ e, is_monitor_dump e = false) delta.
Proof.
  assert (∀ lvl fmt args sent,
            fmt ∈ heartbeat_outcomes →
            (fmt ∈ heartbeat_successes ↔ sent = true) →
            count is_heartbeat_outcome [EvLog lvl fmt args] = 1%nat
            ∧ count is_monitor_dump [EvLog lvl fmt args] = 0%nat
            ∧ count is_heartbeat_success [EvLog lvl fmt args]
              = (if sent then 1 else 0)%nat
            ∧ Forall (λ e, is_monitor_dump e = false) [EvLog lvl fmt args]) as Hone.
  { intros lvl fmt args sent Hin Hsucc. rewrite !count_singleton. simpl.
    rewrite bool_decide_eq_true_2 by done. repeat split; [|by apply Forall_singleton].
    destruct sent.
    - rewrite bool_decide_eq_true_2; [done | by apply Hsucc].
    - rewrite bool_decide_eq_false_2; [done|]. intros Hs. by apply Hsucc in Hs. }
  unfold send_embed, io_bind, DISCORD_WEBHOOK_URL.
  set (url := match env_webhook_url w with Some u => _ | None => _ end).
  destruct (webhook_unconfigured url).
  - exists [EvLog WARNING skip_fmt []]. split; [by split|].
    apply (Hone _ _ _ false); [apply Hskip | split; [by intros ?%Hskip | done]].
  - destruct (emits_post_with_retries unrelated_to_heartbeat
                unrelated_accepts_ordinary url body MAX_RETRIES
                ltac:(done) w) as (d1 & He1 & Hu1).
    destruct (unrelated_counts d1 Hu1) as (K1 & K2 & K3).
    assert (Forall (λ e, is_monitor_dump e = false) d1) as Hd1
      by (eapply Forall_impl; [done | by intros e [_ ?]]).
    destruct (post_with_retries url body MAX_RETRIES w) as [[r|] w1]; simpl in He1.
    + destruct (is_success r).
      * exists (d1 ++ [EvLog INFO sent_fmt sent_args]).
        split; [eapply evolves_trans; [done | by split]|].
        rewrite !count_app, K1, K2, K3. simpl.
        destruct (Hone INFO sent_fmt sent_args true) as (-> & -> & -> & Hf);
          [apply Hsent | by split; [|intros; apply Hsent]|].
        repeat split; try done. by apply Forall_app.
      * exists (d1 ++ [EvLog ERROR status_fmt [AInt (status_code r)]]).
        split; [eapply evolves_trans; [done | by split]|].
        rewrite !count_app, K1, K2, K3. simpl.
        destruct (Hone ERROR status_fmt [AInt (status_code r)] false)
          as (-> & -> & -> & Hf);
          [apply Hstatus | split; [by intros ?%Hstatus | done]|].
        repeat split; try done. by apply Forall_app.
    + exists (d1 ++ [EvLog ERROR failed_fmt failed_args]).
      split; [eapply evolves_trans; [done | by split]|].
      rewrite !count_app, K1, K2, K3. simpl.
      destruct (Hone ERROR failed_fmt failed_args false) as (-> & -> & -> & Hf);
        [apply Hfailed | split; [by intros ?%Hfailed | done]|].
      repeat split; try done. by apply Forall_app.
Qed.
End HeartbeatSend.

Lemma heartbeat_due_static monitor_state w w' delta :
  evolves w w' delta →
  heartbeat_due monitor_state w' = heartbeat_due monitor_state w
  ∧ today_iso w' = today_iso w.
Proof. intros []. unfold heartbeat_due. by rewrite evo_today0, evo_weekday0. Qed.

Lemma save_monitor_state_effects fmt args mapping today w :
  ordinary_fmt fmt = true →
  mapping !! "last_heartbeat_date" = Some today →
  ∃ delta,
    evolves w (save_with fmt args "monitor_state.json" mapping w).2 delta
    ∧ count is_heartbeat_outcome delta = 0%nat
    ∧ count is_heartbeat_success delta = 0%nat
    ∧ (count is_monitor_dump delta ≤ 1)%nat
    ∧ Forall (λ e, match e with
                   | EvDump path m =>
                       path = "monitor_state.json" →
                       m !! "last_heartbeat_date" = Some today
                   | _ => True
                   end) delta.
Proof.
  intros Hfmt Hdate. unfold save_with, io_bind, write_file.
  destruct (writable w "monitor_state.json").
  - exists [EvDump "monitor_state.json" mapping]. split; [by split|].
    rewrite !count_singleton. simpl. repeat split; try lia.
    by apply Forall_singleton.
  - exists [EvLog ERROR fmt args]. split; [by split|].
    rewrite !count_singleton. simpl.
    unfold ordinary_fmt in Hfmt. apply negb_true_iff in Hfmt. rewrite Hfmt.
    destruct (bool_decide (fmt ∈ heartbeat_successes)) eqn:Hs.
    + apply bool_decide_eq_true in Hs.
      assert (is_heartbeat_outcome (EvLog ERROR fmt args) = true) as Ho
        by (apply success_is_outcome; simpl; by apply bool_decide_eq_true).
      simpl in Ho. congruence.
    + repeat split; try lia. by apply Forall_singleton.
Qed.

Section HeartbeatBlock.
Context (send : IO bool) (save_fmt : string) (save_args : list logarg).
Context (Hsend : ∀ w, ∃ delta,
            evolves w (send w).2 delta
            ∧ count is_heartbeat_outcome delta = 1%nat
            ∧ count is_monitor_dump delta = 0%nat
            ∧ count is_heartbeat_success delta = (if (send w).1 then 1 else 0)%nat
            ∧ Forall (λ e, is_monitor_dump e = false) delta)
        (Hsave : ordinary_fmt save_fmt = true).

Lemma heartbeat_block_spec monitor_state :
  heartbeat_spec monitor_state
    (heartbeat_block send (save_with save_fmt save_args "monitor_state.json")
       monitor_state).
Proof.
  intros w.
  destruct (heartbeat_block_contract send
              (save_with save_fmt save_args "monitor_state.json") monitor_state w)
    as [Hidle Hdue].
  destruct (heartbeat_due monitor_state w) eqn:Hd.
  - destruct (Hdue eq_refl) as (sent & w1 & Hs & Hfail & Hok).
    destruct (Hsend w) as (d1 & He1 & K1 & K2 & K3 & Hnd). rewrite Hs in He1, K3.
    simpl in He1, K3.
    assert (Forall (λ e, match e with
                         | EvDump path m =>
                             path = "monitor_state.json" →
                             m !! "last_heartbeat_date" = Some (today_iso w)
                         | _ => True
                         end) d1) as Hd1.
    { eapply Forall_impl; [done|]. intros [| | | |path m] Hm; try done.
      simpl in Hm. apply bool_decide_eq_false in Hm. done. }
    destruct sent.
    + rewrite (Hok eq_refl). simpl.
      destruct (save_monitor_state_effects save_fmt save_args
                  (<["last_heartbeat_date" := today_iso w]> monitor_state)
                  (today_iso w) w1 Hsave) as (d2 & He2 & D1 & D2 & D3 & Hd2).
      { by rewrite lookup_insert_eq. }
      exists (d1 ++ d2). split; [by eapply evolves_trans|].
      unfold heartbeat_trace. rewrite !count_app, K1, K2, K3, D1, D2.
      repeat split; try done; try lia. by apply Forall_app.
    + rewrite (Hfail eq_refl). simpl. exists d1. split; [done|].
      unfold heartbeat_trace. rewrite K1, K2, K3. repeat split; try done; lia.
  - rewrite (Hidle eq_refl). simpl. exists []. split; [apply evolves_refl|].
    by apply unrelated_heartbeat_trace.
Qed.
End HeartbeatBlock.

(** ** Composition along a run *)

Section HeartbeatAlongARun.
Context (monitor_state : gmap string string).

Lemma heartbeat_spec_of_emits {A} (m : IO A) :
  emits unrelated_to_heartbeat m → heartbeat_spec monitor_state m.
Proof.
  intros Hm w. destruct (Hm w) as (d & He & Hu).
  exists d. split; [done | by apply unrelated_heartbeat_trace].
Qed.

Lemma heartbeat_spec_bind_l {A B} (m : IO A) (k : A → IO B) :
  emits unrelated_to_heartbeat m →
  (∀ a, heartbeat_spec monitor_state (k a)) →
  heartbeat_spec monitor_state (io_bind m k).
Proof.
  intros Hm Hk w. unfold io_bind.
  destruct (Hm w) as (d1 & He1 & Hu1). destruct (m w) as [a w1]. simpl in He1.
  destruct (Hk a w1) as (d2 & He2 & Ht2).
  destruct (heartbeat_due_static monitor_state w w1 d1 He1) as [Hdue Htoday].
  rewrite Hdue, Htoday in Ht2.
  exists (d1 ++ d2). split; [by eapply evolves_trans|].
  by apply heartbeat_trace_app_l.
Qed.

Lemma heartbeat_spec_try_bind_l {A B} (m : IO (outcome A)) (k : A → IO (outcome B)) :
  emits unrelated_to_heartbeat m →
  (∀ a, heartbeat_spec monitor_state (k a)) →
  heartbeat_spec monitor_state (try_bind m k).
Proof.
  intros Hm Hk. apply heartbeat_spec_bind_l; [done|].
  intros [a|e|]; [apply Hk | |]; apply heartbeat_spec_of_emits, emits_ret.
Qed.

Lemma heartbeat_spec_bind_r {A B} (m : IO A) (k : A → IO B) :
  heartbeat_spec monitor_state m →
  (∀ a, emits unrelated_to_heartbeat (k a)) →
  heartbeat_spec monitor_state (io_bind m k).
Proof.
  intros Hm Hk w. unfold io_bind.
  destruct (Hm w) as (d1 & He1 & Ht1). destruct (m w) as [a w1]. simpl in He1.
  destruct (Hk a w1) as (d2 & He2 & Hu2).
  exists (d1 ++ d2). split; [by eapply evolves_trans|].
  by apply heartbeat_trace_app_r.
Qed.
End HeartbeatAlongARun.

Section RunPrefix.
Context {A : Type} (load : IO (gmap string string)).
Context (Hload : ∀ w, load w = ((load w).1, w))
        (Hdisk : ∀ w w', disk w' = disk w → (load w').1 = (load w).1).

Lemma run_contract_after_reads {B} (m : IO B) (k : B → IO A) :
  only_reads m →
  (∀ b w, run_heartbeat_contract load (k b) w) →
  ∀ w, run_heartbeat_contract load (io_bind m k) w.
Proof.
  intros Hm Hk w. unfold run_heartbeat_contract, io_bind.
  destruct (Hm w) as (d1 & He1 & Hu1). destruct (m w) as [b w1]. simpl in He1.
  destruct (Hk b w1) as (d2 & He2 & Ht2).
  rewrite (Hdisk w w1 (ext_disk _ _ _ He1)) in Ht2.
  apply extends_evolves in He1.
  destruct (heartbeat_due_static (load w).1 w w1 d1 He1) as [Hdue Htoday].
  rewrite Hdue, Htoday in Ht2.
  exists (d1 ++ d2). split; [by eapply evolves_trans|].
  by apply heartbeat_trace_app_l.
Qed.

Lemma run_contract_at_load (k : gmap string string → IO A) :
  (∀ monitor_state, heartbeat_spec monitor_state (k monitor_state)) →
  ∀ w, run_heartbeat_contract load (io_bind load k) w.
Proof.
  intros Hk w. unfold run_heartbeat_contract, io_bind. rewrite (Hload w).
  simpl. apply Hk.
Qed.
End RunPrefix.

Lemma only_reads_log lvl fmt args :
  ordinary_fmt fmt = true → only_reads (log lvl fmt args).
Proof.
  intros Hfmt w. exists [EvLog lvl fmt args]. split; [by split|].
  apply Forall_singleton. by apply unrelated_accepts_ordinary.
Qed.

Section Loads.
Context `{Builtins}.

Lemma load_state_map_pure path w : _load_state_map path w = ((_load_state_map path w).1, w).
Proof.
  unfold _load_state_map, io_bind, read_file, io_ret.
  by destruct (disk w !! path) as [[| |[]]|].
Qed.

Lemma load_state_map_disk path w w' :
  disk w' = disk w → (_load_state_map path w').1 = (_load_state_map path w).1.
Proof.
  intros Hd. unfold _load_state_map, io_bind, read_file, io_ret. rewrite Hd.
  by destruct (disk w !! path) as [[| |[]]|].
Qed.

Lemma load_monitor_state_main_pure path w :
  load_monitor_state_main path w = ((load_monitor_state_main path w).1, w).
Proof.
  unfold load_monitor_state_main, io_bind, read_file, io_ret.
  by destruct (disk w !! path) as [[| |[]]|].
Qed.

Lemma load_monitor_state_main_disk path w w' :
  disk w' = disk w →
  (load_monitor_state_main path w').1 = (load_monitor_state_main path w).1.
Proof.
  intros Hd. unfold load_monitor_state_main, io_bind, read_file, io_ret. rewrite Hd.
  by destruct (disk w !! path) as [[| |[]]|].
Qed.

Lemma only_reads_load_state_map path : only_reads (_load_state_map path).
Proof.
  intros w. rewrite load_state_map_pure. exists []. split; [apply extends_refl | done].
Qed.
End Loads.

(** ** The two programs *)

Ltac listed := apply (bool_decide_unpack _); vm_compute; exact I.

Ltac calm :=
  repeat first
    [ apply emits_projects_block
    | apply emits_docs_block
    | apply emits_tenders_block
    | apply emits_awards_block
    | apply emits_main_fetch_projects
    | apply emits_main_projects
    | apply emits_save_with; [assumption | ordinary | discriminate]
    | apply unrelated_accepts_streams
    | apply unrelated_accepts_ordinary
    | streams_step ].

Section Programs.
Context `{Builtins}.

Lemma agent_heartbeat_block_spec monitor_state a b c d e f g h :
  heartbeat_spec monitor_state
    (heartbeat_block (MonitorAgent.send_discord_heartbeat a b c d e f g h)
       MonitorAgent.save_monitor_state monitor_state).
Proof.
  apply (heartbeat_block_spec (MonitorAgent.send_discord_heartbeat a b c d e f g h)
           "Failed to save state to %s: %s" [AStr MonitorAgent.MONITOR_STATE_FILE]);
    [|ordinary].
  unfold MonitorAgent.send_discord_heartbeat.
  apply heartbeat_send_effects; split; listed.
Qed.

Lemma main_heartbeat_block_spec monitor_state a b c :
  heartbeat_spec monitor_state
    (heartbeat_block (Main.send_discord_heartbeat a b c)
       Main.save_monitor_state monitor_state).
Proof.
  apply (heartbeat_block_spec (Main.send_discord_heartbeat a b c)
           "Failed to save monitor state: %s" []); [|ordinary].
  unfold Main.send_discord_heartbeat.
  apply heartbeat_send_effects; split; listed.
Qed.

Lemma agent_run_heartbeat fuel w :
  run_heartbeat_contract MonitorAgent.load_monitor_state
    (MonitorAgent.run_monitor fuel) w.
Proof.
  unfold MonitorAgent.run_monitor. revert w.
  pose proof unrelated_accepts_streams as HS.
  pose proof unrelated_accepts_ordinary as HP.
  apply run_contract_after_reads;
    [apply load_state_map_disk | by apply only_reads_log | intros _].
  do 3 (apply run_contract_after_reads;
          [apply load_state_map_disk | apply only_reads_load_state_map | intros ?]).
  apply run_contract_at_load; [apply load_state_map_pure|].
  intros monitor_state.
  apply heartbeat_spec_bind_l; [calm | intros _].
  apply heartbeat_spec_try_bind_l; [calm | intros p].
  apply heartbeat_spec_try_bind_l; [calm | intros d].
  apply heartbeat_spec_bind_l; [calm | intros t].
  apply heartbeat_spec_bind_l; [calm | intros a0].
  apply heartbeat_spec_bind_r; [apply agent_heartbeat_block_spec | intros _; calm].
Qed.

Lemma main_run_heartbeat fuel w :
  run_heartbeat_contract Main.load_monitor_state (Main.run_monitor fuel) w.
Proof.
  unfold Main.run_monitor. revert w.
  pose proof unrelated_accepts_streams as HS.
  pose proof unrelated_accepts_ordinary as HP.
  apply run_contract_after_reads;
    [apply load_monitor_state_main_disk | by apply only_reads_log | intros _].
  apply run_contract_after_reads;
    [apply load_monitor_state_main_disk | apply only_reads_load_state_map | intros ?].
  apply run_contract_after_reads;
    [apply load_monitor_state_main_disk | by apply only_reads_log | intros _].
  apply run_contract_after_reads;
    [apply load_monitor_state_main_disk | by apply only_reads_log | intros _].
  apply run_contract_at_load; [apply load_monitor_state_main_pure|].
  intros state.
  apply heartbeat_spec_bind_l; [calm | intros _].
  apply heartbeat_spec_try_bind_l; [calm | intros projects].
  apply heartbeat_spec_bind_l; [calm | intros _].
  destruct projects as [|project projects].
  { apply heartbeat_spec_bind_l; [calm | intros _].
    apply heartbeat_spec_bind_r; [apply main_heartbeat_block_spec | intros _; calm]. }
  cbv zeta.
  apply heartbeat_spec_bind_l; [calm | intros _].
  destruct (List.filter _ (project :: projects)) as [|m matching].
  { apply heartbeat_spec_bind_l; [calm | intros _].
    apply heartbeat_spec_bind_r; [apply main_heartbeat_block_spec | intros _; calm]. }
  apply heartbeat_spec_bind_l; [calm | intros [processed count]].
  apply heartbeat_spec_bind_l; [calm | intros _].
  apply heartbeat_spec_bind_l; [unfold Main.save_processed_projects; calm | intros _].
  apply heartbeat_spec_bind_l; [calm | intros _].
  apply heartbeat_spec_bind_r; [apply main_heartbeat_block_spec | intros _; calm].
Qed.

(** C9: the heartbeat block sends nothing and changes nothing unless
    today is the heartbeat weekday and the recorded last heartbeat date
    differs from today; when it is due the heartbeat is sent once, and
    the monitor state gets today's date and is saved only if that send
    reports success, a failed send leaving the monitor state as it was.
    A whole run of either program sends the heartbeat at most once, not
    at all when the state it loaded makes the heartbeat not due, and
    writes the monitor state file at most as often as a heartbeat
    succeeded, always with today's date. *)
Theorem heartbeat_fires_at_most_once_and_commits_on_success
    (send_heartbeat : IO bool) (save_monitor_state : gmap string string → IO unit)
    (monitor_state : gmap string string) (fuel : nat) (w : World) :
  heartbeat_contract send_heartbeat save_monitor_state monitor_state w
  ∧ run_heartbeat_contract MonitorAgent.load_monitor_state
      (MonitorAgent.run_monitor fuel) w
  ∧ run_heartbeat_contract Main.load_monitor_state (Main.run_monitor fuel) w.
Proof.
  split; [apply heartbeat_block_contract|].
  split; [apply agent_run_heartbeat | apply main_run_heartbeat].
Qed.
End Programs.

